(** * modele_pism_inputs: metadata recovery and grid reconstruction

    A shallow embedding of the pure core of [topo/modele_pism_inputs.py]:
    the command-line parser and the grid naming of [snoop_pism], the argument
    rewriting of [make_pism_args] and [center_to_boundaries].

    Conventions of the embedding.
    - Python [str] is [string] (ASCII text), [None] is [None] of [option].
    - Python [int] is [Z].
    - A 1-D numpy array of float64 is a [list Q]: the arithmetic is the exact
      one of the rationals, rounding is not modelled.  numpy's scalar division
      never raises (a zero divisor gives nan or an infinity and a warning);
      [Qdiv] is total as well and no statement below depends on the value of
      a quotient by zero.  A statement about a computed number either repeats
      the expression of the code, or is made for inputs on which float64
      computes without rounding ([whole], [exact_resampling]); a statement
      that rests on [int] returning is made for finite numbers
      ([bounded_axis]), since [int] of nan or of an infinity raises.
    - A [collections.OrderedDict] is an association list in insertion order.
    - A raised exception is a value of [exn]; a function that may raise
      returns a [result]. *)

From Stdlib Require Import List String Ascii ZArith QArith Qabs Lia Lqa Bool Arith.
From Stdlib Require Import DecimalString.
Import ListNotations.
Open Scope string_scope.

(** ** Exceptions and results *)

(** The exceptions of Python that the code meets.  [ZeroDivisionError] is
    what a division of Python numbers by zero raises; numpy scalars do not
    raise it. *)
Inductive exn : Type :=
| IndexError
| KeyError (key : string)
| TypeError
| AttributeError
| ValueError
| ZeroDivisionError
| FileNotFoundError.

Inductive result (A : Type) : Type :=
| Ok (a : A)
| Raise (e : exn).

Arguments Ok {A} a.
Arguments Raise {A} e.

Definition rbind {A B : Type} (r : result A) (k : A -> result B) : result B :=
  match r with
  | Ok a => k a
  | Raise e => Raise e
  end.

Declare Scope result_scope.
Delimit Scope result_scope with result.
Notation "x <- r ;; k" := (rbind r (fun x => k))
  (at level 61, r at next level, right associativity) : result_scope.

(** ** Python strings *)

Module PyStr.

(** [s.startswith(p)] *)
Definition startswith (s p : string) : bool := String.prefix p s.

(** [s[1:]] *)
Definition drop1 (s : string) : string :=
  match s with
  | EmptyString => EmptyString
  | String _ r => r
  end.

(** [s[n]] for [n >= 0]; out of range raises [IndexError]. *)
Definition getitem (s : string) (n : nat) : result ascii :=
  match String.get n s with
  | Some c => Ok c
  | None => Raise IndexError
  end.

(** [c.isdigit()] on an ASCII character. *)
Definition isdigit (c : ascii) : bool :=
  let n := nat_of_ascii c in (48 <=? n)%nat && (n <=? 57)%nat.

(** The characters matched by [\s] (ASCII range): tab, newline, vertical
    tab, form feed, carriage return, the four separators 28..31, space. *)
Definition isspace (c : ascii) : bool :=
  let n := nat_of_ascii c in
  ((9 <=? n)%nat && (n <=? 13)%nat) || ((28 <=? n)%nat && (n <=? 32)%nat).

(** [sep.join(l)] *)
Fixpoint join (sep : string) (l : list string) : string :=
  match l with
  | [] => ""
  | [x] => x
  | x :: rest => x ++ sep ++ join sep rest
  end.

(** [s.split(c)] for a one-character separator: never empty, keeps the
    empty fields. *)
Fixpoint split (c : ascii) (s : string) : list string :=
  match s with
  | EmptyString => [""]
  | String a r =>
      if Ascii.eqb a c then "" :: split c r
      else match split c r with
           | [] => [String a ""]
           | w :: ws => String a w :: ws
           end
  end.

(** [re.split(r'\s+', s)]: the fields between maximal runs of whitespace;
    a leading or trailing run leaves an empty first or last field.
    [inws] tells that the previous character was whitespace. *)
Fixpoint re_split_ws_aux (inws : bool) (s : string) : list string :=
  match s with
  | EmptyString => [""]
  | String a r =>
      if isspace a then
        if inws then re_split_ws_aux true r
        else "" :: re_split_ws_aux true r
      else match re_split_ws_aux false r with
           | [] => [String a ""]
           | w :: ws => String a w :: ws
           end
  end.

Definition re_split_ws (s : string) : list string := re_split_ws_aux false s.

End PyStr.

(** ** Ordered dictionaries *)

Module ODict.

(** Keys are strings; a value is a string or [None]. *)
Definition t : Type := list (string * option string).

Definition empty : t := [].

(** [d[k]]; an absent key raises [KeyError]. *)
Fixpoint getitem (d : t) (k : string) : result (option string) :=
  match d with
  | [] => Raise (KeyError k)
  | (k', v) :: r => if String.eqb k' k then Ok v else getitem r k
  end.

(** [d[k] = v]: an existing key keeps its position, a new key goes last. *)
Fixpoint setitem (d : t) (k : string) (v : option string) : t :=
  match d with
  | [] => [(k, v)]
  | (k', v') :: r =>
      if String.eqb k' k then (k', v) :: r else (k', v') :: setitem r k v
  end.

(** [del d[k]]; an absent key raises [KeyError]. *)
Fixpoint delitem (d : t) (k : string) : result t :=
  match d with
  | [] => Raise (KeyError k)
  | (k', v') :: r =>
      if String.eqb k' k then Ok r
      else match delitem r k with
           | Ok r' => Ok ((k', v') :: r')
           | Raise e => Raise e
           end
  end.

End ODict.

(** ** The command-line parser of [snoop_pism] (lines 196-206) *)

(** The condition of line 201 on the token [nxt = cmd[i+1]]:
    [(not nxt.startswith('-')) or (len(nxt) > 1 and nxt[2].isdigit())],
    with Python's short-circuit evaluation. *)
Definition takes_value (nxt : string) : result bool :=
  if negb (PyStr.startswith nxt "-") then Ok true
  else if (1 <? String.length nxt)%nat then
    (c <- PyStr.getitem nxt 2 ;; Ok (PyStr.isdigit c))%result
  else Ok false.

(** The third character of a token is a digit. *)
Definition third_is_digit (s : string) : bool :=
  match String.get 2 s with
  | Some c => PyStr.isdigit c
  | None => false
  end.

(** [cmd[i]]; the cursor is never negative. *)
Definition cmd_getitem (cmd : list string) (i : nat) : result string :=
  match nth_error cmd i with
  | Some s => Ok s
  | None => Raise IndexError
  end.

(** One run of the body of the [while] loop, from cursor [i] and map [args],
    to the next cursor and map. *)
Definition parse_body (cmd : list string) (st : nat * ODict.t)
  : result (nat * ODict.t) :=
  let '(i, args) := st in
  (tok <- cmd_getitem cmd i ;;
   if PyStr.startswith tok "-" then
     nxt <- cmd_getitem cmd (i + 1) ;;
     b <- takes_value nxt ;;
     if b then Ok (i + 1 + 1, ODict.setitem args (PyStr.drop1 tok) (Some nxt))%nat
     else Ok (i + 1, ODict.setitem args (PyStr.drop1 tok) None)%nat
   else Ok (i + 1, args)%nat)%result.

Arguments parse_body : simpl never.

(** [while i < len(cmd): body].  [None] is fuel exhaustion. *)
Fixpoint parse_while (fuel : nat) (cmd : list string) (st : nat * ODict.t)
  : option (result ODict.t) :=
  if (fst st <? List.length cmd)%nat then
    match fuel with
    | O => None
    | S fuel' =>
        match parse_body cmd st with
        | Ok st' => parse_while fuel' cmd st'
        | Raise e => Some (Raise e)
        end
    end
  else Some (Ok (snd st)).

(** The parser: [args = OrderedDict(); i = 0; while ...].  Every run of the
    body moves the cursor forward, so [length cmd] runs are enough
    (shown below). *)
Definition parse_cmd (cmd : list string) : option (result ODict.t) :=
  parse_while (List.length cmd) cmd (0%nat, ODict.empty).

(** [n] runs of the body, from the state [st]. *)
Fixpoint parse_iter (n : nat) (cmd : list string) (st : nat * ODict.t)
  : result (nat * ODict.t) :=
  match n with
  | O => Ok st
  | S n' => (st' <- parse_body cmd st ;; parse_iter n' cmd st')%result
  end.

(** The loop read on the tokens from the cursor on: the body looks at
    [cmd[i]] and [cmd[i+1]] only.  [parse_while_tokens] relates the two. *)
Fixpoint parse_tokens (toks : list string) (args : ODict.t)
  : result ODict.t :=
  match toks with
  | [] => Ok args
  | tok :: rest =>
      if PyStr.startswith tok "-" then
        match rest with
        | [] => Raise IndexError
        | nxt :: rest' =>
            match takes_value nxt with
            | Ok true =>
                parse_tokens rest' (ODict.setitem args (PyStr.drop1 tok) (Some nxt))
            | Ok false =>
                parse_tokens rest (ODict.setitem args (PyStr.drop1 tok) None)
            | Raise e => Raise e
            end
        end
      else parse_tokens rest args
  end.

(** The parser on the stored command-line attribute. *)
Definition parse_command (command : string) : option (result ODict.t) :=
  parse_cmd (PyStr.re_split_ws command).

(** ** Paths ([posixpath]) *)

Module PosixPath.

Definition endswith_sep (s : string) : bool :=
  match String.get (String.length s - 1) s with
  | Some c => Ascii.eqb c "/"
  | None => false
  end.

(** [os.path.join(a, b)] *)
Definition join (a b : string) : string :=
  if PyStr.startswith b "/" then b
  else if String.eqb a "" || endswith_sep a then a ++ b
  else a ++ "/" ++ b.

Definition is_empty {A : Type} (l : list A) : bool :=
  match l with [] => true | _ => false end.

(** The loop of [normpath] over the components. *)
Definition normpath_step (initial_slashes : nat) (new_comps : list string)
    (comp : string) : list string :=
  if String.eqb comp "" || String.eqb comp "." then new_comps
  else if negb (String.eqb comp "..")
          || (Nat.eqb initial_slashes 0 && is_empty new_comps)
          || (negb (is_empty new_comps)
              && String.eqb (last new_comps "") "..")
       then (new_comps ++ [comp])%list
       else removelast new_comps.

Fixpoint seps (n : nat) : string :=
  match n with O => "" | S m => "/" ++ seps m end.

(** [os.path.normpath(path)] *)
Definition normpath (path : string) : string :=
  if String.eqb path "" then "."
  else
    let initial_slashes :=
      if PyStr.startswith path "/" then
        if PyStr.startswith path "//" && negb (PyStr.startswith path "///")
        then 2%nat else 1%nat
      else 0%nat in
    let comps := PyStr.split "/" path in
    let new_comps := fold_left (normpath_step initial_slashes) comps [] in
    let p := seps initial_slashes ++ PyStr.join "/" new_comps in
    if String.eqb p "" then "." else p.

(** [os.path.split(p)[1]]: what follows the last slash. *)
Definition basename (p : string) : string := last (PyStr.split "/" p) "".

Fixpoint all_dots (s : string) : bool :=
  match s with
  | EmptyString => true
  | String c r => Ascii.eqb c "." && all_dots r
  end.

(** [os.path.splitext(p)[0]] for a [p] without slash: [p] up to its last
    dot, unless only dots come before that dot. *)
Definition splitext_root (p : string) : string :=
  match rev (PyStr.split "." p) with
  | [] | [_] => p
  | _ :: before =>
      let root := PyStr.join "." (rev before) in
      if all_dots root then p else root
  end.

End PosixPath.

(** ** numpy arrays of one dimension *)

Module Np.

Definition array : Type := list Q.

(** [np.zeros(n)] *)
Definition zeros (n : nat) : array := repeat 0%Q n.

(** The position an index [i] denotes in an array of [n] elements:
    a negative index counts from the end, out of range raises. *)
Definition position (n : nat) (i : Z) : result nat :=
  let j := (if i <? 0 then i + Z.of_nat n else i)%Z in
  if ((0 <=? j) && (j <? Z.of_nat n))%Z then Ok (Z.to_nat j)
  else Raise IndexError.

(** [a[i]] *)
Definition getitem (a : array) (i : Z) : result Q :=
  (j <- position (List.length a) i ;;
   match nth_error a j with
   | Some x => Ok x
   | None => Raise IndexError
   end)%result.

Fixpoint update (a : array) (j : nat) (v : Q) : array :=
  match a, j with
  | [], _ => []
  | _ :: r, O => v :: r
  | x :: r, S j' => x :: update r j' v
  end.

(** [a[i] = v] *)
Definition setitem (a : array) (i : Z) (v : Q) : result array :=
  (j <- position (List.length a) i ;; Ok (update a j v))%result.

(** A slice bound clipped into [0..n]; [None] is an omitted upper bound. *)
Definition bound (n : nat) (i : option Z) : nat :=
  match i with
  | None => n
  | Some i =>
      let j := (if i <? 0 then i + Z.of_nat n else i)%Z in
      Z.to_nat (Z.max 0 (Z.min j (Z.of_nat n)))
  end.

(** [a[lo:hi]] *)
Definition slice (a : array) (lo : Z) (hi : option Z) : array :=
  let l := bound (List.length a) (Some lo) in
  let h := bound (List.length a) hi in
  firstn (h - l) (skipn l a).

Fixpoint zip_with (f : Q -> Q -> Q) (a b : array) : array :=
  match a, b with
  | x :: a', y :: b' => f x y :: zip_with f a' b'
  | _, _ => []
  end.

(** [a + b]: elementwise; shapes that differ broadcast when one of them
    has a single element and raise [ValueError] otherwise. *)
Definition add (a b : array) : result array :=
  if (List.length a =? List.length b)%nat then Ok (zip_with Qplus a b)
  else match a, b with
       | [x], _ => Ok (map (fun y => x + y)%Q b)
       | _, [y] => Ok (map (fun x => x + y)%Q a)
       | _, _ => Raise ValueError
       end.

(** [a * c] for a scalar [c] *)
Definition scale (a : array) (c : Q) : array := map (fun x => x * c)%Q a.

(** [a[lo:hi] = v]: [v] has the length of the slice, or one element that
    is broadcast; another length raises [ValueError]. *)
Definition setslice (a : array) (lo : Z) (hi : option Z) (v : array)
  : result array :=
  let l := bound (List.length a) (Some lo) in
  let h := bound (List.length a) hi in
  let m := (h - l)%nat in
  if (List.length v =? m)%nat then Ok (firstn l a ++ v ++ skipn (l + m) a)%list
  else match v with
       | [x] => Ok (firstn l a ++ repeat x m ++ skipn (l + m) a)%list
       | _ => Raise ValueError
       end.

End Np.

(** ** [center_to_boundaries] (lines 271-276) *)

Definition center_to_boundaries (xc : Np.array) : result Np.array :=
  (let xb := Np.zeros (List.length xc + 1) in
   c0 <- Np.getitem xc 0 ;;
   c1 <- Np.getitem xc 1 ;;
   xb <- Np.setitem xb 0 ((3 # 2) * c0 - (1 # 2) * c1)%Q ;;
   s <- Np.add (Np.slice xc 0 (Some (-1)%Z)) (Np.slice xc 1 None) ;;
   xb <- Np.setslice xb 1 (Some (-1)%Z) (Np.scale s (1 # 2)) ;;
   cl <- Np.getitem xc (-1) ;;
   cm <- Np.getitem xc (-2) ;;
   xb <- Np.setitem xb (-1) ((3 # 2) * cl - (1 # 2) * cm)%Q ;;
   Ok xb)%result.

(** The midpoints of line 274: [(xc[0:-1] + xc[1:]) * .5] *)
Definition midpoints (xc : Np.array) : Np.array :=
  Np.scale (Np.zip_with Qplus (removelast xc) (tl xc)) (1 # 2).

(** ** The grid of [snoop_pism] (lines 208-237) *)

(** [range(0, n)] *)
Definition range0 (n : Z) : list Z := map Z.of_nat (seq 0 (Z.to_nat n)).

(** [list(f(x) for x in l)]: the first exception ends the traversal. *)
Fixpoint list_of {A B : Type} (f : A -> result B) (l : list A)
  : result (list B) :=
  match l with
  | [] => Ok []
  | x :: r => (y <- f x ;; ys <- list_of f r ;; Ok (y :: ys))%result
  end.

(** [c5[0] + (c5[-1]-c5[0]) * i / (M-1)] (lines 216 and 217).  The
    operands are numpy scalars: the division returns for every divisor (for
    [M = 1] numpy gives nan or an infinity, [Qdiv] gives 0), so the only
    exception here is the [IndexError] of an empty [c5]. *)
Definition center_at (c5 : Np.array) (M i : Z) : result Q :=
  (a <- Np.getitem c5 0 ;;
   b <- Np.getitem c5 (-1) ;;
   c <- Np.getitem c5 0 ;;
   Ok (a + (b - c) * inject_Z i / inject_Z (M - 1))%Q)%result.

Definition resample (c5 : Np.array) (M : Z) : result Np.array :=
  list_of (center_at c5 M) (range0 M).

(** The value of line 216 at index [k], on a non-empty [c5]. *)
Definition resampled (c5 : Np.array) (M k : Z) : Q :=
  (nth 0 c5 0
   + (nth (List.length c5 - 1) c5 0 - nth 0 c5 0) * inject_Z k
     / inject_Z (M - 1))%Q.

(** [int(q)]: truncation toward zero. *)
Definition py_int (q : Q) : Z := Z.quot (Qnum q) (Zpos (Qden q)).

(** [int(.5 + (c[1] - c[0]) / 1000.)] (lines 224 and 225). *)
Definition resolution_km (c : Np.array) : result Z :=
  (c1 <- Np.getitem c 1 ;;
   c0 <- Np.getitem c 0 ;;
   Ok (py_int ((1 # 2) + (c1 - c0) / inject_Z 1000)%Q))%result.

(** The quotient of lines 224 and 225: [(c[1] - c[0]) / 1000.] *)
Definition axis_quotient (c : Np.array) : Q :=
  ((nth 1 c 0 - nth 0 c 0) / inject_Z 1000)%Q.

(** [z] is an integer nearest to [q]. *)
Definition nearest_int (q : Q) (z : Z) : Prop :=
  (Qabs (q - inject_Z z) <= 1 # 2)%Q.

(** ['{}'.format(z)] *)
Definition str_of_Z (z : Z) : string := NilZero.string_of_int (Z.to_int z).

(** Lines 226-229. *)
Definition dxdy_of (idx idy : Z) : string :=
  if (idx =? idy)%Z then str_of_Z idx
  else str_of_Z idx ++ "_" ++ str_of_Z idy.

(** Lines 231-235; the second format has three slots for four arguments,
    the last one is dropped by [format]. *)
Definition grid_name (iname dxdy : string) (index_order : Z * Z) : string :=
  if PyStr.startswith iname "pism_Greenland" then
    "pism_g" ++ dxdy ++ "km_" ++ str_of_Z (fst index_order)
             ++ str_of_Z (snd index_order)
  else
    PosixPath.splitext_root iname ++ dxdy ++ "km_" ++ str_of_Z (fst index_order).

(** What [snoop_pism] reads of the bootstrap file: the attribute [proj4]
    and the variables [x1] and [y1], each possibly absent. *)
Record ncfile : Type := {
  nc_proj4 : option string;
  nc_x1 : option Np.array;
  nc_y1 : option Np.array
}.

(** The dictionary [vals] that [snoop_pism] returns. *)
Record pism_vals : Type := {
  grid_Mx : Z;
  grid_My : Z;
  args : ODict.t;
  proj4 : string;
  x_centers : Np.array;
  y_centers : Np.array;
  index_order : Z * Z;
  name : string
}.

Definition required {A : Type} (e : exn) (o : option A) : result A :=
  match o with
  | Some a => Ok a
  | None => Raise e
  end.

(** Lines 208-237, from the parsed arguments on.  [fs] is the file system:
    the netCDF file at a path, if there is one. *)
Definition snoop_grid (fs : string -> option ncfile) (pism_dir : string)
    (Mx My : Z) (args : ODict.t) : result pism_vals :=
  (i <- ODict.getitem args "i" ;;
   i <- required TypeError i ;;
   let fname := PosixPath.normpath (PosixPath.join pism_dir i) in
   nc <- required FileNotFoundError (fs fname) ;;
   proj4 <- required AttributeError (nc_proj4 nc) ;;
   xc5 <- required (KeyError "x1") (nc_x1 nc) ;;
   yc5 <- required (KeyError "y1") (nc_y1 nc) ;;
   xc <- resample xc5 Mx ;;
   yc <- resample yc5 My ;;
   let index_order := (1, 0)%Z in
   idx <- resolution_km xc ;;
   idy <- resolution_km yc ;;
   let dxdy := dxdy_of idx idy in
   let iname := PosixPath.basename i in
   Ok {| grid_Mx := Mx; grid_My := My; args := args; proj4 := proj4;
         x_centers := xc; y_centers := yc; index_order := index_order;
         name := grid_name iname dxdy index_order |})%result.

(** A bootstrap file of 5 km cells, x ascending and y descending, at
    [/run/pism_Greenland_5km.nc], and arguments that name it. *)
Definition greenland_5km : ncfile :=
  {| nc_proj4 := Some "+proj=stere";
     nc_x1 := Some [0; 5000; 10000]%Q;
     nc_y1 := Some [10000; 5000; 0]%Q |}.

Definition fs_greenland (path : string) : option ncfile :=
  if String.eqb path "/run/pism_Greenland_5km.nc" then Some greenland_5km
  else None.

Definition args_greenland : ODict.t := [("i", Some "pism_Greenland_5km.nc")].

(** [snoop_pism] on an archival file whose attributes are [command], [Mx]
    and [My]. *)
Definition snoop_pism (fs : string -> option ncfile) (pism_dir : string)
    (command : string) (Mx My : Z) : option (result pism_vals) :=
  match parse_command command with
  | None => None
  | Some r => Some (args <- r ;; snoop_grid fs pism_dir Mx My args)%result
  end.

(** ** [make_pism_args] (lines 239-268)

    The dictionaries live in a store: [pism['args']] is a reference, the
    function builds a second dictionary and returns a reference to it. *)

Module Store.

Definition loc : Type := nat.
Definition heap : Type := list ODict.t.

(** A computation reads and writes the store and returns or raises. *)
Definition M (A : Type) : Type := heap -> result A * heap.

Definition ret {A : Type} (a : A) : M A := fun h => (Ok a, h).

Definition bind {A B : Type} (m : M A) (k : A -> M B) : M B :=
  fun h =>
    match m h with
    | (Ok a, h') => k a h'
    | (Raise e, h') => (Raise e, h')
    end.

Definition lift {A : Type} (r : result A) : M A := fun h => (r, h).

(** The dictionary at a reference.  References come from [new_dict] and
    are allocated; at any other location [deref] is the empty dictionary. *)
Definition deref (h : heap) (l : loc) : ODict.t := nth l h ODict.empty.

Fixpoint store (h : heap) (l : loc) (d : ODict.t) : heap :=
  match h, l with
  | [], _ => []
  | _ :: r, O => d :: r
  | x :: r, S l' => x :: store r l' d
  end.

(** [collections.OrderedDict(items)] *)
Definition new_dict (items : ODict.t) : M loc :=
  fun h => (Ok (List.length h), (h ++ [items])%list).

(** [d.items()] *)
Definition items (l : loc) : M ODict.t := fun h => (Ok (deref h l), h).

(** [d[k]] *)
Definition getitem (l : loc) (k : string) : M (option string) :=
  fun h => (ODict.getitem (deref h l) k, h).

(** [d[k] = v] *)
Definition setitem (l : loc) (k : string) (v : option string) : M unit :=
  fun h => (Ok tt, store h l (ODict.setitem (deref h l) k v)).

(** [del d[k]] *)
Definition delitem (l : loc) (k : string) : M unit :=
  fun h =>
    match ODict.delitem (deref h l) k with
    | Ok d => (Ok tt, store h l d)
    | Raise e => (Raise e, h)
    end.

(** [try: m except KeyError: pass] *)
Definition except_KeyError_pass (m : M unit) : M unit :=
  fun h =>
    match m h with
    | (Raise (KeyError _), h') => (Ok tt, h')
    | r => r
    end.

(** [for x in l: body] *)
Fixpoint for_each {A : Type} (l : list A) (body : A -> M unit) : M unit :=
  match l with
  | [] => ret tt
  | x :: r => bind (body x) (fun _ => for_each r body)
  end.

(** [m] run on a store of at least [n] dictionaries leaves the first [n]
    as they are, and its result, if any, satisfies [Q]. *)
Definition frames {A : Type} (n : nat) (m : M A) (Q : A -> Prop) : Prop :=
  forall h : heap,
    (n <= List.length h)%nat ->
    firstn n (snd (m h)) = firstn n h
    /\ (n <= List.length (snd (m h)))%nat
    /\ match fst (m h) with
       | Ok a => Q a
       | Raise _ => True
       end.

End Store.

Declare Scope store_scope.
Delimit Scope store_scope with store.
Notation "x <- m ;; k" := (Store.bind m (fun x => k))
  (at level 61, m at next level, right associativity) : store_scope.
Notation "m ;;; k" := (Store.bind m (fun _ => k))
  (at level 61, right associativity) : store_scope.

Definition bootstrap_only : list string :=
  ["bootstrap"; "Mx"; "My"; "Mz"; "Mbz"; "z_spacing"; "Lz"; "Lbz"; "ys"; "ye"].

Definition path_keys : list string :=
  ["i"; "surface_given_file"; "ocean_kill_file"].

Definition baseline_vars : string :=
  "climatic_mass_balance,ice_surface_temp,diffusivity,temppabase,tempicethk_basal,bmelt,tillwat,csurf,mask,thk,topg,usurf".

(** [var in evset] *)
Definition in_set (var : string) (evset : list string) : bool :=
  existsb (String.eqb var) evset.

(** Lines 261-265: the list [extra_vars] after the loop. *)
Definition extend_vars (extra_vars : list string) : list string :=
  let evset := extra_vars in
  fold_left
    (fun acc var => if in_set var evset then acc else (acc ++ [var])%list)
    (PyStr.split "," baseline_vars) extra_vars.

Definition make_pism_args (pism_dir : string) (pism_args : Store.loc)
  : Store.M Store.loc :=
  (its <- Store.items pism_args ;;
   args <- Store.new_dict its ;;
   Store.for_each bootstrap_only
     (fun arg => Store.except_KeyError_pass (Store.delitem args arg)) ;;;
   Store.for_each path_keys
     (fun key =>
        v <- Store.getitem args key ;;
        v <- Store.lift (required TypeError v) ;;
        Store.setitem args key
          (Some (PosixPath.normpath (PosixPath.join pism_dir v)))) ;;;
   ev <- Store.getitem args "extra_vars" ;;
   ev <- Store.lift (required AttributeError ev) ;;
   let extra_vars := extend_vars (PyStr.split "," ev) in
   Store.setitem args "extra_vars" (Some (PyStr.join "," extra_vars)) ;;;
   Store.ret args)%store.


(** The argument map of the specification's example, and the same map with
    the two other path arguments that line 257 reads. *)
Definition example_args : ODict.t :=
  [("bootstrap", None); ("Mx", Some "76"); ("i", Some "rel/in.nc");
   ("extra_vars", Some "thk,topg")].

Definition example_args_with (sgf okf : string) : ODict.t :=
  [("bootstrap", None); ("Mx", Some "76"); ("i", Some "rel/in.nc");
   ("surface_given_file", Some sgf); ("ocean_kill_file", Some okf);
   ("extra_vars", Some "thk,topg")].

Definition example_extra_vars : string :=
  "thk,topg,climatic_mass_balance,ice_surface_temp,diffusivity,temppabase,tempicethk_basal,bmelt,tillwat,csurf,mask,usurf".

(** ** [write_gridspec_xy] (lines 278-301)

    The netCDF file that the function writes is a [dataset]: dimensions and
    variables in the order of their creation.  [netCDF4.Dataset(f, 'w')]
    creates the file empty; what was written stays when the block is left
    by an exception. *)

Inductive ncattr : Type :=
| AttrStr (s : string)
| AttrInt (z : Z)
| AttrInts (l : list Z).

Record ncvar : Type := {
  var_type : string;
  var_dims : list string;
  var_data : option Np.array;
  var_attrs : list (string * ncattr)
}.

Record dataset : Type := {
  ds_dims : list (string * nat);
  ds_vars : list (string * ncvar)
}.

Definition empty_dataset : dataset := {| ds_dims := []; ds_vars := [] |}.

(** [nc.createDimension(name, size)] *)
Definition createDimension (nc : dataset) (name : string) (size : nat)
  : dataset :=
  {| ds_dims := (ds_dims nc ++ [(name, size)])%list; ds_vars := ds_vars nc |}.

(** [nc.createVariable(name, type, dims)] followed by the writes to the
    variable: its data, if any, and its attributes. *)
Definition createVariable (nc : dataset) (name type : string)
    (dims : list string) (data : option Np.array)
    (attrs : list (string * ncattr)) : dataset :=
  {| ds_dims := ds_dims nc;
     ds_vars := (ds_vars nc
                 ++ [(name, {| var_type := type; var_dims := dims;
                               var_data := data; var_attrs := attrs |})])%list |}.

Definition write_gridspec_xy (pism : pism_vals) : result unit * dataset :=
  let nc := empty_dataset in
  let xc := x_centers pism in
  match center_to_boundaries xc with
  | Raise e => (Raise e, nc)
  | Ok xb =>
      let nc := createDimension nc "grid.x_boundaries.length" (List.length xb) in
      let nc := createVariable nc "grid.x_boundaries" "d"
                  ["grid.x_boundaries.length"] (Some xb) [] in
      let yc := y_centers pism in
      match center_to_boundaries yc with
      | Raise e => (Raise e, nc)
      | Ok yb =>
          let nc := createDimension nc "grid.y_boundaries.length"
                      (List.length yb) in
          let nc := createVariable nc "grid.y_boundaries" "d"
                      ["grid.y_boundaries.length"] (Some yb) [] in
          let nc := createVariable nc "grid.info" "i" [] None
                      [("name", AttrStr (name pism));
                       ("type", AttrStr "XY");
                       ("indices", AttrInts [fst (index_order pism);
                                             snd (index_order pism)]);
                       ("sproj", AttrStr (proj4 pism));
                       ("nx", AttrInt (Z.of_nat (List.length xc)));
                       ("ny", AttrInt (Z.of_nat (List.length yc)))] in
          (Ok tt, nc)
      end
  end.

(** ** [pushd] (lines 13-20)

    The process has a working directory, an absolute normalised path;
    [is_dir] tells which paths are directories, and the body of the [with]
    block leaves them be. *)

Module Proc.

Definition P (A : Type) : Type := string -> result A * string.

(** [os.chdir(d)] *)
Definition chdir (is_dir : string -> bool) (d : string) : P unit :=
  fun cwd =>
    let target := PosixPath.normpath (PosixPath.join cwd d) in
    if negb (String.eqb d "") && is_dir target then (Ok tt, target)
    else (Raise FileNotFoundError, cwd).

(** [with pushd(dir): body] *)
Definition pushd {A : Type} (is_dir : string -> bool) (dir : string)
    (body : P A) : P A :=
  fun cwd =>
    let curdir := cwd in
    match chdir is_dir dir cwd with
    | (Raise e, cwd1) => (Raise e, cwd1)
    | (Ok _, cwd1) =>
        let '(r, cwd2) := body cwd1 in
        match chdir is_dir curdir cwd2 with
        | (Raise e, cwd3) => (Raise e, cwd3)
        | (Ok _, cwd3) => (r, cwd3)
        end
    end.

End Proc.

(** ** [make_grid] (lines 22-33) *)

Module Grid.

(** What [subprocess.run] returns. *)
Inductive completed : Type := CompletedProcess (returncode : Z).

(** [ret != 0] for a [CompletedProcess]: the class defines no comparison,
    so the object differs from every integer. *)
Definition ne_int (ret : completed) (n : Z) : bool := true.

(** The exceptions of [make_grid]: the one of [subprocess.run], or the
    [NameError] of a name that is not defined. *)
Inductive grid_exn : Type :=
| NameError (name : string)
| RunError (e : exn).

Inductive outcome : Type :=
| Returns (b : bool)
| Raises (e : grid_exn).

(** What the function does to the outside: lines printed, commands run. *)
Inductive event : Type :=
| Print (line : string)
| Run (cmd : list string).

Definition make_grid (path_exists : string -> bool)
    (subprocess_run : list string -> result completed)
    (grid_cmd : list string) (grid_fname : string)
  : outcome * list event :=
  let out := [Print ("***************** " ++ grid_fname)] in
  if path_exists grid_fname then (Returns false, out)
  else
    let cmd := (grid_cmd ++ ["-o"; grid_fname])%list in
    let out := (out ++ [Print (PyStr.join " " cmd)])%list in
    let out := (out ++ [Run cmd])%list in
    match subprocess_run cmd with
    | Raise e => (Raises (RunError e), out)
    | Ok ret =>
        if ne_int ret 0 then (Raises (NameError "RuntimError"), out)
        else (Returns true, out)
    end.

End Grid.

(** The same bootstrap file under a name of another region. *)
Definition fs_antarctica (path : string) : option ncfile :=
  if String.eqb path "/run/ant_5km.v2.nc" then Some greenland_5km else None.

Definition args_antarctica : ODict.t := [("i", Some "ant_5km.v2.nc")].

(** Three directories. *)
Definition dirs_run (path : string) : bool :=
  String.eqb path "/" || String.eqb path "/run" || String.eqb path "/run/out".

(** Centers for an x axis and too few for a y axis. *)
Definition vals_short_y : pism_vals :=
  {| grid_Mx := 3; grid_My := 1; args := args_greenland;
     proj4 := "+proj=stere";
     x_centers := [0; 5000; 10000]%Q; y_centers := [0]%Q;
     index_order := (1, 0)%Z; name := "pism_g5km_10" |}.

(** ** Where the arithmetic of the rationals is that of float64

    The centers are float64 numbers in the code.  The statements that say
    more of a computed number than the expression that computes it are made
    for inputs on which float64 computes that expression without rounding,
    or on which it stays finite. *)

(** A whole number of magnitude at most [bound].  Sums, differences, halves
    and one-and-a-half multiples of whole numbers up to [2^50] are float64
    numbers: lines 273-275 compute them exactly. *)
Definition whole (bound : Z) (q : Q) : Prop :=
  exists z : Z, (q == inject_Z z)%Q /\ (Z.abs z <= bound)%Z.

(** The first and the last native center are whole numbers up to [2^25],
    the size is at most [2^25] and [M - 1] divides the extent: every
    product, quotient and sum of lines 216-217 is then a whole number below
    [2^53], computed exactly. *)
Definition exact_resampling (c5 : Np.array) (M : Z) : Prop :=
  exists a b : Z,
    (nth 0 c5 0 == inject_Z a)%Q
    /\ (nth (List.length c5 - 1) c5 0 == inject_Z b)%Q
    /\ (Z.abs a <= 2 ^ 25)%Z /\ (Z.abs b <= 2 ^ 25)%Z
    /\ (M <= 2 ^ 25)%Z
    /\ (M - 1 | b - a)%Z.

(** The first and the last native center and the size are of magnitude at
    most [2^50]: the numbers of lines 216-217 and 224-225 are then finite,
    and [int] of them returns. *)
Definition bounded_axis (c5 : Np.array) (M : Z) : Prop :=
  (Qabs (nth 0 c5 0) <= inject_Z (2 ^ 50))%Q
  /\ (Qabs (nth (List.length c5 - 1) c5 0) <= inject_Z (2 ^ 50))%Q
  /\ (M <= 2 ^ 50)%Z.

(** ** Helpers of the statements *)

(** The command line that spells an association of names and values:
    [-k1 v1 -k2 v2 ...]. *)
Fixpoint command_of (kvs : list (string * string)) : list string :=
  match kvs with
  | [] => []
  | (k, v) :: r => String "-" k :: v :: command_of r
  end.

(** The entry that a pair of name and value gives. *)
Definition entry_of (kv : string * string) : string * option string :=
  (fst kv, Some (snd kv)).

(** Where an entry of the map comes from: a flag token of the command
    line, and for a value the token right after that flag. *)
Definition from_command (cmd : list string) (e : string * option string)
  : Prop :=
  exists tok : string,
    PyStr.startswith tok "-" = true
    /\ fst e = PyStr.drop1 tok
    /\ match snd e with
       | None => In tok cmd
       | Some nxt => exists pre post, cmd = (pre ++ tok :: nxt :: post)%list
       end.

(** The character [c] occurs in [s]. *)
Fixpoint contains_char (c : ascii) (s : string) : bool :=
  match s with
  | EmptyString => false
  | String a r => Ascii.eqb a c || contains_char c r
  end.

(** Lines 261-266 on the text of [extra_vars]. *)
Definition add_baseline (ev : string) : string :=
  PyStr.join "," (extend_vars (PyStr.split "," ev)).

(** The loops of [make_pism_args] read as functions on the dictionary
    that the call creates: lines 247-253, ... *)
Definition drop_key (d : ODict.t) (arg : string) : ODict.t :=
  match ODict.delitem d arg with
  | Ok d' => d'
  | Raise _ => d
  end.

Definition drop_keys (d : ODict.t) (keys : list string) : ODict.t :=
  fold_left drop_key keys d.

(** ... line 258, ... *)
Definition absolutize (pism_dir : string) (d : ODict.t) (key : string)
  : result ODict.t :=
  (v <- ODict.getitem d key ;;
   v <- required TypeError v ;;
   Ok (ODict.setitem d key
         (Some (PosixPath.normpath (PosixPath.join pism_dir v)))))%result.

Fixpoint absolutize_all (pism_dir : string) (d : ODict.t)
    (keys : list string) : result ODict.t :=
  match keys with
  | [] => Ok d
  | key :: r =>
      (d' <- absolutize pism_dir d key ;; absolutize_all pism_dir d' r)%result
  end.

(** ... lines 261-266, ... *)
Definition add_vars (d : ODict.t) : result ODict.t :=
  (ev <- ODict.getitem d "extra_vars" ;;
   ev <- required AttributeError ev ;;
   Ok (ODict.setitem d "extra_vars"
         (Some (PyStr.join "," (extend_vars (PyStr.split "," ev))))))%result.

(** ... and the whole of lines 246-268. *)
Definition transform_args (pism_dir : string) (d : ODict.t) : result ODict.t :=
  (d' <- absolutize_all pism_dir (drop_keys d bootstrap_only) path_keys ;;
   add_vars d')%result.

(** * Properties *)

Open Scope list_scope.

(** ** The parser *)

Section Parser.

Variable cmd : list string.

Lemma cmd_getitem_Ok (i : nat) (tok : string) :
  cmd_getitem cmd i = Ok tok <-> nth_error cmd i = Some tok.
Proof.
  unfold cmd_getitem. destruct (nth_error cmd i); split; congruence.
Qed.

(** A run of the body moves the cursor forward by one or two and leaves
    it within [0 .. len(cmd)]. *)
Lemma parse_body_cursor (i j : nat) (a a' : ODict.t) :
  parse_body cmd (i, a) = Ok (j, a') ->
  (i < j <= i + 2 /\ j <= List.length cmd)%nat.
Proof.
  unfold parse_body, rbind.
  destruct (cmd_getitem cmd i) as [tok|] eqn:Ei; [|discriminate].
  apply cmd_getitem_Ok in Ei.
  assert (Hi : (i < List.length cmd)%nat)
    by (apply nth_error_Some; congruence).
  destruct (PyStr.startswith tok "-").
  - destruct (cmd_getitem cmd (i + 1)) as [nxt|] eqn:En; [|discriminate].
    apply cmd_getitem_Ok in En.
    assert (Hn : (i + 1 < List.length cmd)%nat)
      by (apply nth_error_Some; congruence).
    destruct (takes_value nxt) as [[|]|]; intros H; inversion H; lia.
  - intros H; inversion H; lia.
Qed.

(** The loop by cursor is the loop on the remaining tokens; with fuel for
    the tokens that remain it never runs out. *)
Lemma parse_while_tokens (fuel i : nat) (a : ODict.t) :
  (List.length cmd - i <= fuel)%nat ->
  parse_while fuel cmd (i, a) = Some (parse_tokens (skipn i cmd) a).
Proof.
  revert i a. induction fuel as [|fuel IH]; intros i a Hf.
  - simpl. destruct (Nat.ltb_spec i (List.length cmd)); [lia|].
    rewrite skipn_all2 by lia. reflexivity.
  - simpl. destruct (Nat.ltb_spec i (List.length cmd)) as [Hi|Hi].
    2:{ rewrite skipn_all2 by lia. reflexivity. }
    destruct (nth_error cmd i) as [tok|] eqn:Ei.
    2:{ apply nth_error_None in Ei. lia. }
    pose proof (nth_error_split cmd i Ei) as (pre & rest & Hc & Hl).
    assert (Hs : skipn i cmd = tok :: rest).
    { rewrite Hc, <- Hl, skipn_app, skipn_all, Nat.sub_diag. reflexivity. }
    assert (Hs1 : skipn (i + 1) cmd = rest).
    { replace (i + 1)%nat with (1 + i)%nat by lia.
      rewrite <- skipn_skipn, Hs. reflexivity. }
    rewrite Hs. unfold parse_body, rbind, cmd_getitem. rewrite Ei. simpl.
    destruct (PyStr.startswith tok "-").
    + destruct rest as [|nxt rest'].
      * assert (En : nth_error cmd (i + 1) = None).
        { apply nth_error_None. rewrite <- (firstn_skipn (i + 1) cmd).
          rewrite Hs1, app_nil_r, length_firstn. lia. }
        rewrite En. reflexivity.
      * assert (En : nth_error cmd (i + 1) = Some nxt).
        { rewrite <- (firstn_skipn (i + 1) cmd) at 1. rewrite Hs1.
          assert (Hlen : (i + 1 <= List.length cmd)%nat) by lia.
          rewrite nth_error_app2; rewrite length_firstn.
          - replace (i + 1 - Nat.min (i + 1) (List.length cmd))%nat
              with 0%nat by lia. reflexivity.
          - lia. }
        rewrite En.
        assert (Hs2 : skipn (i + 1 + 1) cmd = rest').
        { replace (i + 1 + 1)%nat with (1 + (i + 1))%nat by lia.
          rewrite <- skipn_skipn, Hs1. reflexivity. }
        assert (Hlen : (i + 2 <= List.length cmd)%nat).
        { assert (i + 1 < List.length cmd)%nat
            by (apply nth_error_Some; congruence). lia. }
        destruct (takes_value nxt) as [[|]|]; try reflexivity.
        -- rewrite IH by lia. rewrite Hs2. reflexivity.
        -- rewrite IH by lia. rewrite Hs1. reflexivity.
    + rewrite IH by lia. rewrite Hs1. reflexivity.
Qed.

(** The parser always ends: with a map or with an exception. *)
Lemma parse_cmd_tokens : parse_cmd cmd = Some (parse_tokens cmd ODict.empty).
Proof.
  unfold parse_cmd. rewrite parse_while_tokens by lia. reflexivity.
Qed.

End Parser.

(** *** The policy of line 201 *)

(** Off the tokens of exactly two characters, the condition of line 201 is
    evaluated without exception and says: no leading dash, or a digit as
    third character. *)
Lemma takes_value_policy (nxt : string) :
  String.length nxt <> 2%nat ->
  takes_value nxt
  = Ok (negb (PyStr.startswith nxt "-") || third_is_digit nxt).
Proof.
  intros Hlen. unfold takes_value, third_is_digit, PyStr.getitem, rbind.
  destruct (PyStr.startswith nxt "-"); simpl; [|reflexivity].
  destruct nxt as [|c0 [|c1 [|c2 r]]]; simpl in *; try reflexivity.
  congruence.
Qed.

(** A token of a dash and one more character makes line 201 read past its
    end: the guard [len(cmd[i+1]) > 1] lets it through to [cmd[i+1][2]]. *)
Lemma takes_value_two_chars (c : ascii) :
  takes_value (String "-" (String c "")) = Raise IndexError.
Proof. reflexivity. Qed.

(** The body at a flag token, when the next token has not exactly two
    characters: the value is taken and the cursor moves by two, or the flag
    has no value and the cursor moves by one. *)
Lemma parse_body_policy (cmd : list string) (i : nat) (a : ODict.t)
    (tok nxt : string) :
  nth_error cmd i = Some tok ->
  PyStr.startswith tok "-" = true ->
  nth_error cmd (i + 1) = Some nxt ->
  String.length nxt <> 2%nat ->
  parse_body cmd (i, a)
  = if negb (PyStr.startswith nxt "-") || third_is_digit nxt
    then Ok ((i + 2)%nat, ODict.setitem a (PyStr.drop1 tok) (Some nxt))
    else Ok ((i + 1)%nat, ODict.setitem a (PyStr.drop1 tok) None).
Proof.
  intros Ei Hd En Hlen. unfold parse_body, rbind, cmd_getitem.
  rewrite Ei, Hd, En, (takes_value_policy nxt Hlen).
  replace (i + 1 + 1)%nat with (i + 2)%nat by lia.
  destruct (negb (PyStr.startswith nxt "-") || third_is_digit nxt);
    reflexivity.
Qed.

(** C1, where the code departs from it.  On the tokens [-ys -1] the policy
    records [ys] as a flag without value and moves the cursor by one; the
    code raises
    [IndexError] when it reads the third character of [-1], in the body and
    so in the whole parse.  The same happens to a flag followed by a
    one-letter option, as in [pismr -bootstrap -i in.nc]. *)
Theorem parse_flag_before_two_char_token :
  parse_body ["-ys"; "-1"] (0%nat, ODict.empty) = Raise IndexError
  /\ parse_cmd ["-ys"; "-1"] = Some (Raise IndexError)
  /\ parse_command "pismr -bootstrap -i in.nc" = Some (Raise IndexError).
Proof. repeat split; reflexivity. Qed.

(** C2.  The command line of the specification parses to the five entries
    [i], [bootstrap], [Mx], [ys], [o], in the order of the command line,
    [bootstrap] without value and [ys] with the value [-100]. *)
Theorem parse_command_example :
  parse_command "-i in.nc -bootstrap -Mx 76 -ys -100 -o out.nc"
  = Some (Ok [("i", Some "in.nc"); ("bootstrap", None); ("Mx", Some "76");
              ("ys", Some "-100"); ("o", Some "out.nc")]).
Proof. vm_compute. reflexivity. Qed.

(** *** Tokens without a leading dash *)

Lemma parse_body_tokens (cmd : list string) (i j : nat) (a a' : ODict.t) :
  parse_body cmd (i, a) = Ok (j, a') ->
  parse_tokens (skipn i cmd) a = parse_tokens (skipn j cmd) a'.
Proof.
  intros Hb. pose proof (parse_body_cursor _ _ _ _ _ Hb) as [Hij Hj].
  pose proof (parse_while_tokens cmd (S (List.length cmd)) i a) as H1.
  pose proof (parse_while_tokens cmd (List.length cmd) j a') as H2.
  change (parse_while (S (List.length cmd)) cmd (i, a))
    with (if (i <? List.length cmd)%nat
          then match parse_body cmd (i, a) with
               | Ok st' => parse_while (List.length cmd) cmd st'
               | Raise e => Some (Raise e)
               end
          else Some (Ok a)) in H1.
  rewrite Hb in H1.
  destruct (Nat.ltb_spec i (List.length cmd)); [|lia].
  rewrite H2 in H1 by lia. specialize (H1 ltac:(lia)). congruence.
Qed.

Lemma parse_iter_tokens (cmd : list string) (n : nat) :
  forall (i j : nat) (a a' : ODict.t),
    parse_iter n cmd (i, a) = Ok (j, a') ->
    parse_tokens (skipn i cmd) a = parse_tokens (skipn j cmd) a'.
Proof.
  induction n as [|n IH]; simpl; intros i j a a' H.
  - inversion H; reflexivity.
  - revert H. unfold rbind.
    destruct (parse_body cmd (i, a)) as [[k b]|] eqn:Hb; [|discriminate].
    intros H. rewrite (parse_body_tokens _ _ _ _ _ Hb). eauto.
Qed.

Lemma parse_iter_cursor (cmd : list string) (n : nat) :
  forall (i j : nat) (a a' : ODict.t),
    parse_iter n cmd (i, a) = Ok (j, a') -> (i <= j)%nat.
Proof.
  induction n as [|n IH]; simpl; intros i j a a' H.
  - inversion H; lia.
  - revert H. unfold rbind.
    destruct (parse_body cmd (i, a)) as [[k b]|] eqn:Hb; [|discriminate].
    intros H. apply parse_body_cursor in Hb. apply IH in H. lia.
Qed.

Section BareToken.

Variables (pre post : list string) (tok : string).
Hypothesis tok_bare : PyStr.startswith tok "-" = false.

(** A run of the body that ends no further than [tok] has not read it. *)
Lemma parse_body_delete (i j : nat) (a a' : ODict.t) :
  parse_body (pre ++ tok :: post) (i, a) = Ok (j, a') ->
  (j <= List.length pre)%nat ->
  parse_body (pre ++ post) (i, a) = Ok (j, a').
Proof.
  intros Hb Hj. pose proof (parse_body_cursor _ _ _ _ _ Hb) as [Hij _].
  revert Hb. unfold parse_body, rbind, cmd_getitem.
  assert (Hi : forall l, nth_error (pre ++ l) i = nth_error pre i)
    by (intros l; apply nth_error_app1; lia).
  rewrite !Hi.
  destruct (nth_error pre i) as [t|]; [|discriminate].
  destruct (PyStr.startswith t "-"); [|tauto].
  destruct (Nat.eq_dec (i + 1) (List.length pre)) as [E|E].
  - rewrite (nth_error_app2 pre (tok :: post)) by lia.
    rewrite E, Nat.sub_diag. simpl.
    unfold takes_value. rewrite tok_bare. simpl.
    intros H; inversion H; lia.
  - assert (Hn : forall l, nth_error (pre ++ l) (i + 1)
                           = nth_error pre (i + 1))
      by (intros l; apply nth_error_app1; lia).
    rewrite !Hn. tauto.
Qed.

Lemma parse_iter_delete (n : nat) :
  forall (i : nat) (a a' : ODict.t),
    parse_iter n (pre ++ tok :: post) (i, a) = Ok (List.length pre, a') ->
    parse_iter n (pre ++ post) (i, a) = Ok (List.length pre, a').
Proof.
  induction n as [|n IH]; simpl; intros i a a' H; [exact H|].
  revert H. unfold rbind.
  destruct (parse_body (pre ++ tok :: post) (i, a)) as [[k b]|] eqn:Hb;
    [|discriminate].
  intros H. pose proof (parse_iter_cursor _ _ _ _ _ _ H) as Hk.
  rewrite (parse_body_delete _ _ _ _ Hb Hk). auto.
Qed.

End BareToken.

(** C10.  When the cursor comes to a token that does not begin with a dash
    (so the token was not taken as the value of the flag before it), the
    body leaves the map as it is, moves on by one and raises nothing; the
    parse gives what it gives on the command line without that token. *)
Theorem bare_token_skipped (pre post : list string) (tok : string)
    (n : nat) (a : ODict.t) :
  PyStr.startswith tok "-" = false ->
  parse_iter n (pre ++ tok :: post) (0%nat, ODict.empty)
  = Ok (List.length pre, a) ->
  parse_body (pre ++ tok :: post) (List.length pre, a)
  = Ok ((List.length pre + 1)%nat, a)
  /\ parse_cmd (pre ++ tok :: post) = parse_cmd (pre ++ post).
Proof.
  intros Hbare Hreach. split.
  - unfold parse_body, rbind, cmd_getitem.
    rewrite nth_error_app2, Nat.sub_diag by lia. simpl.
    rewrite Hbare. reflexivity.
  - rewrite !parse_cmd_tokens.
    pose proof (parse_iter_tokens _ _ _ _ _ _ Hreach) as H1.
    pose proof (parse_iter_tokens _ _ _ _ _ _
                  (parse_iter_delete pre post tok Hbare n _ _ _ Hreach)) as H2.
    simpl in H1, H2. rewrite H1, H2.
    rewrite !skipn_app, !skipn_all, Nat.sub_diag. simpl.
    rewrite Hbare. reflexivity.
Qed.

(** The executable name in front and a stray token after a value. *)
Lemma bare_token_skipped_witness :
  PyStr.startswith "stray" "-" = false
  /\ parse_cmd ["pismr"; "-i"; "in.nc"; "stray"; "-o"; "out.nc"]
     = parse_cmd ["pismr"; "-i"; "in.nc"; "-o"; "out.nc"].
Proof.
  split; [reflexivity|].
  apply (bare_token_skipped ["pismr"; "-i"; "in.nc"] ["-o"; "out.nc"]
           "stray" 2 [("i", Some "in.nc")]); reflexivity.
Defined.

(** ** numpy indexing *)

Module NpFacts.

Import Np.

Lemma position_nonneg (n : nat) (i : Z) :
  (0 <= i < Z.of_nat n)%Z -> position n i = Ok (Z.to_nat i).
Proof.
  intros H. unfold position.
  destruct (Z.ltb_spec i 0); [lia|].
  destruct (Z.leb_spec 0 i); [|lia].
  destruct (Z.ltb_spec i (Z.of_nat n)); [reflexivity|lia].
Qed.

Lemma position_neg (n : nat) (i : Z) :
  (- Z.of_nat n <= i < 0)%Z ->
  position n i = Ok (Z.to_nat (i + Z.of_nat n)).
Proof.
  intros H. unfold position.
  destruct (Z.ltb_spec i 0); [|lia].
  destruct (Z.leb_spec 0 (i + Z.of_nat n)); [|lia].
  destruct (Z.ltb_spec (i + Z.of_nat n) (Z.of_nat n)); [reflexivity|lia].
Qed.

Lemma position_out (n : nat) (i : Z) :
  (i < - Z.of_nat n \/ Z.of_nat n <= i)%Z -> position n i = Raise IndexError.
Proof.
  intros H. unfold position.
  destruct (Z.ltb_spec i 0).
  - destruct (Z.leb_spec 0 (i + Z.of_nat n)); [lia|reflexivity].
  - destruct (Z.leb_spec 0 i); [|lia].
    destruct (Z.ltb_spec i (Z.of_nat n)); [lia|reflexivity].
Qed.

Lemma getitem_nonneg (a : array) (i : Z) :
  (0 <= i < Z.of_nat (List.length a))%Z ->
  getitem a i = Ok (nth (Z.to_nat i) a 0%Q).
Proof.
  intros H. unfold getitem. rewrite position_nonneg by exact H. simpl.
  rewrite (nth_error_nth' a 0%Q) by lia. reflexivity.
Qed.

Lemma getitem_neg (a : array) (i : Z) :
  (- Z.of_nat (List.length a) <= i < 0)%Z ->
  getitem a i = Ok (nth (Z.to_nat (i + Z.of_nat (List.length a))) a 0%Q).
Proof.
  intros H. unfold getitem. rewrite position_neg by exact H. simpl.
  rewrite (nth_error_nth' a 0%Q) by lia. reflexivity.
Qed.

Lemma getitem_out (a : array) (i : Z) :
  (i < - Z.of_nat (List.length a) \/ Z.of_nat (List.length a) <= i)%Z ->
  getitem a i = Raise IndexError.
Proof.
  intros H. unfold getitem. rewrite position_out by exact H. reflexivity.
Qed.

Lemma length_zeros (n : nat) : List.length (zeros n) = n.
Proof. apply repeat_length. Qed.

Lemma update_last (l : array) (x v : Q) :
  update (l ++ [x]) (List.length l) v = (l ++ [v])%list.
Proof. induction l as [|y l IH]; simpl; congruence. Qed.

Lemma length_zip_with (f : Q -> Q -> Q) (a b : array) :
  List.length (zip_with f a b) = Nat.min (List.length a) (List.length b).
Proof.
  revert b; induction a as [|x a IH]; intros [|y b]; simpl; auto.
Qed.

Lemma nth_zip_with (f : Q -> Q -> Q) (a b : array) (k : nat) (d : Q) :
  (k < List.length a)%nat -> (k < List.length b)%nat ->
  nth k (zip_with f a b) d = f (nth k a d) (nth k b d).
Proof.
  revert b k; induction a as [|x a IH]; intros [|y b] [|k]; simpl;
    intros; try lia; auto with arith.
Qed.

Lemma nth_removelast (a : array) (k : nat) (d : Q) :
  (k < List.length a - 1)%nat -> nth k (removelast a) d = nth k a d.
Proof.
  revert k; induction a as [|x a IH]; intros k Hk; simpl in *; [lia|].
  destruct a as [|y a]; simpl in *; [lia|].
  destruct k as [|k]; [reflexivity|]. apply IH. lia.
Qed.

Lemma bound_nonneg (n : nat) (i : Z) :
  (0 <= i)%Z -> bound n (Some i) = Nat.min (Z.to_nat i) n.
Proof.
  intros H. unfold bound. destruct (Z.ltb_spec i 0); lia.
Qed.

Lemma bound_neg (n : nat) (i : Z) :
  (i < 0)%Z -> bound n (Some i) = (n - Z.to_nat (- i))%nat.
Proof.
  intros H. unfold bound. destruct (Z.ltb_spec i 0); lia.
Qed.

(** [a[0:-1]] is [a] without its last element. *)
Lemma slice_init (a : array) : slice a 0 (Some (-1)%Z) = removelast a.
Proof.
  unfold slice. rewrite (bound_nonneg _ 0), (bound_neg _ (-1)) by lia.
  change (Z.to_nat 0) with 0%nat. change (Z.to_nat (- -1)) with 1%nat.
  rewrite Nat.min_0_l, Nat.sub_0_r, Nat.sub_1_r. simpl skipn.
  symmetry. apply removelast_firstn_len.
Qed.

(** [a[1:]] is [a] without its first element. *)
Lemma slice_tail (a : array) : slice a 1 None = tl a.
Proof.
  unfold slice. rewrite (bound_nonneg _ 1) by lia. unfold bound.
  change (Z.to_nat 1) with 1%nat.
  destruct a as [|x a]; [reflexivity|].
  simpl. rewrite Nat.sub_0_r. apply firstn_all.
Qed.

(** [a[1:-1] = v] on [a = x :: mid ++ [y]] with [v] as long as [mid]. *)
Lemma setslice_inner (x y : Q) (mid v : array) :
  List.length v = List.length mid ->
  setslice (x :: mid ++ [y]) 1 (Some (-1)%Z) v = Ok (x :: v ++ [y]).
Proof.
  intros Hv. unfold setslice.
  rewrite (bound_nonneg _ 1), (bound_neg _ (-1)) by lia.
  change (Z.to_nat 1) with 1%nat. change (Z.to_nat (- -1)) with 1%nat.
  assert (Hn : List.length (x :: mid ++ [y]) = (List.length mid + 2)%nat).
  { simpl. rewrite length_app. simpl. lia. }
  rewrite Hn.
  replace (Nat.min 1 (List.length mid + 2)) with 1%nat by lia.
  replace (List.length mid + 2 - 1 - 1)%nat with (List.length mid) by lia.
  rewrite Hv, Nat.eqb_refl.
  replace (1 + List.length mid)%nat with (S (List.length mid)) by lia.
  simpl. rewrite skipn_app, skipn_all, Nat.sub_diag. reflexivity.
Qed.

End NpFacts.

(** ** [center_to_boundaries] *)

Section Boundaries.

Import Np NpFacts.

Lemma length_midpoints (xc : array) :
  List.length (midpoints xc) = (List.length xc - 1)%nat.
Proof.
  unfold midpoints, scale. rewrite length_map, length_zip_with.
  rewrite removelast_firstn_len, length_firstn.
  destruct xc; simpl; lia.
Qed.

Lemma nth_midpoints (xc : array) (k : nat) :
  (k < List.length xc - 1)%nat ->
  nth k (midpoints xc) 0%Q = ((nth k xc 0 + nth (S k) xc 0) * (1 # 2))%Q.
Proof.
  intros Hk. unfold midpoints, scale.
  assert (Hl : List.length (removelast xc) = (List.length xc - 1)%nat).
  { rewrite removelast_firstn_len, length_firstn. lia. }
  assert (Ht : List.length (tl xc) = (List.length xc - 1)%nat)
    by (destruct xc; simpl; lia).
  rewrite (nth_indep _ 0%Q (0 * (1 # 2))%Q)
    by (rewrite length_map, length_zip_with; lia).
  rewrite (map_nth (fun x => (x * (1 # 2))%Q)).
  rewrite nth_zip_with by lia. rewrite nth_removelast by exact Hk.
  destruct xc; [simpl in Hk; lia|]. reflexivity.
Qed.

(** With two centers or more the function returns the first extrapolated
    boundary, the midpoints and the last extrapolated boundary. *)
Lemma center_to_boundaries_closed (xc : array) :
  (2 <= List.length xc)%nat ->
  center_to_boundaries xc
  = Ok (((3 # 2) * nth 0 xc 0 - (1 # 2) * nth 1 xc 0)%Q
        :: midpoints xc
        ++ [((3 # 2) * nth (List.length xc - 1) xc 0
             - (1 # 2) * nth (List.length xc - 2) xc 0)%Q]).
Proof.
  intros HN. unfold center_to_boundaries.
  rewrite (getitem_nonneg xc 0), (getitem_nonneg xc 1) by lia.
  change (Z.to_nat 0) with 0%nat. change (Z.to_nat 1) with 1%nat.
  cbn [rbind].
  assert (Hz : zeros (List.length xc + 1)
               = 0%Q :: zeros (List.length xc - 1) ++ [0%Q]).
  { unfold zeros.
    replace (List.length xc + 1)%nat with (S (S (List.length xc - 1)))
      by lia.
    cbn [repeat]. rewrite repeat_cons. reflexivity. }
  rewrite Hz. unfold setitem at 1.
  rewrite position_nonneg by (simpl List.length; lia).
  change (Z.to_nat 0) with 0%nat. cbn [rbind update].
  rewrite slice_init, slice_tail. unfold add.
  assert (Hl : List.length (removelast xc) = List.length (tl xc)).
  { rewrite removelast_firstn_len, length_firstn.
    destruct xc; simpl; lia. }
  rewrite Hl, Nat.eqb_refl. cbn [rbind].
  fold (midpoints xc).
  rewrite setslice_inner
    by (rewrite length_midpoints, length_zeros; reflexivity).
  cbn [rbind].
  rewrite (getitem_neg xc (-1)), (getitem_neg xc (-2)) by lia.
  replace (Z.to_nat (-1 + Z.of_nat (List.length xc)))
    with (List.length xc - 1)%nat by lia.
  replace (Z.to_nat (-2 + Z.of_nat (List.length xc)))
    with (List.length xc - 2)%nat by lia.
  cbn [rbind]. unfold setitem.
  set (v0 := ((3 # 2) * nth 0 xc 0 - (1 # 2) * nth 1 xc 0)%Q).
  assert (HL : List.length (v0 :: midpoints xc ++ [0%Q])
               = S (List.length (v0 :: midpoints xc))).
  { simpl. rewrite length_app. simpl. lia. }
  rewrite position_neg by (rewrite HL; lia). rewrite HL.
  replace (Z.to_nat (-1 + Z.of_nat (S (List.length (v0 :: midpoints xc)))))
    with (List.length (v0 :: midpoints xc)) by lia.
  cbn [rbind].
  change (v0 :: midpoints xc ++ [0%Q]) with ((v0 :: midpoints xc) ++ [0%Q]).
  rewrite (update_last (v0 :: midpoints xc)). reflexivity.
Qed.

End Boundaries.

(** C3.  For two centers or more, [center_to_boundaries] returns one
    boundary more than there are centers: the first is
    [1.5*c[0] - 0.5*c[1]], the last is [1.5*c[N-1] - 0.5*c[N-2]], and the
    boundary [k] in between is the midpoint of the centers [k-1] and [k];
    the centers [0, 1, 2, 3] give [-0.5, 0.5, 1.5, 2.5, 3.5]. *)
Theorem center_to_boundaries_spec (xc : Np.array) :
  (2 <= List.length xc)%nat ->
  exists xb : Np.array,
    center_to_boundaries xc = Ok xb
    /\ List.length xb = (List.length xc + 1)%nat
    /\ (nth 0 xb 0 == (3 # 2) * nth 0 xc 0 - (1 # 2) * nth 1 xc 0)%Q
    /\ (nth (List.length xc) xb 0
        == (3 # 2) * nth (List.length xc - 1) xc 0
           - (1 # 2) * nth (List.length xc - 2) xc 0)%Q
    /\ (forall k : nat,
          (1 <= k <= List.length xc - 1)%nat ->
          (nth k xb 0 == (nth (k - 1) xc 0 + nth k xc 0) / 2)%Q)
    /\ (xc = [0; 1; 2; 3]%Q ->
        Forall2 Qeq xb [- (1 # 2); 1 # 2; 3 # 2; 5 # 2; 7 # 2]%Q).
Proof.
  intros HN. eexists. split; [apply center_to_boundaries_closed, HN|].
  pose proof (length_midpoints xc) as Hm.
  split; [|split; [|split; [|split]]].
  - simpl. rewrite length_app, Hm. simpl. lia.
  - reflexivity.
  - rewrite app_comm_cons.
    rewrite app_nth2 by (simpl; lia).
    replace (List.length xc - _)%nat with 0%nat by (simpl; lia).
    reflexivity.
  - intros k Hk. destruct k as [|k]; [lia|]. cbn [nth].
    rewrite app_nth1 by lia. rewrite nth_midpoints by lia.
    replace (S k - 1)%nat with k by lia. field.
  - intros ->. vm_compute. repeat constructor.
Qed.

Lemma center_to_boundaries_spec_witness :
  (2 <= List.length [0; 1; 2; 3]%Q)%nat
  /\ exists xb : Np.array,
       center_to_boundaries [0; 1; 2; 3]%Q = Ok xb
       /\ Forall2 Qeq xb [- (1 # 2); 1 # 2; 3 # 2; 5 # 2; 7 # 2]%Q.
Proof.
  split; [simpl; lia|].
  destruct (center_to_boundaries_spec [0; 1; 2; 3]%Q) as (xb & H & _ & _ & _ & _ & Hx).
  - simpl; lia.
  - exists xb. split; [exact H|apply Hx; reflexivity].
Defined.

(** C8.  With fewer than two centers [center_to_boundaries] fails, and
    always with the out-of-range index error of [xc[0]] or [xc[1]]
    ([IndexError], the [InsufficientDataError] of the specification). *)
Theorem center_to_boundaries_short (xc : Np.array) :
  (List.length xc < 2)%nat -> center_to_boundaries xc = Raise IndexError.
Proof.
  destruct xc as [|c0 [|c1 r]]; simpl List.length; intros H.
  - reflexivity.
  - reflexivity.
  - lia.
Qed.

Lemma center_to_boundaries_short_witness :
  (List.length [5 # 1]%Q < 2)%nat
  /\ center_to_boundaries [5 # 1]%Q = Raise IndexError.
Proof.
  split; [simpl; lia|].
  apply (center_to_boundaries_short [5 # 1]%Q). simpl; lia.
Defined.

(** ** Resampling (lines 216-217) *)

Lemma length_range0 (M : Z) : List.length (range0 M) = Z.to_nat M.
Proof. unfold range0. rewrite length_map, length_seq. reflexivity. Qed.

Lemma nth_range0 (M k : Z) :
  (0 <= k < M)%Z -> nth (Z.to_nat k) (range0 M) 0%Z = k.
Proof.
  intros Hk. unfold range0.
  rewrite (nth_indep _ 0%Z (Z.of_nat 0)) by (rewrite length_map, length_seq; lia).
  rewrite (map_nth Z.of_nat), seq_nth by lia. lia.
Qed.

Section Resample.

Import Np NpFacts.

Variable c5 : array.
Hypothesis c5_nonempty : (1 <= List.length c5)%nat.

Lemma center_at_Ok (M i : Z) : center_at c5 M i = Ok (resampled c5 M i).
Proof.
  unfold center_at.
  rewrite (getitem_nonneg c5 0), (getitem_neg c5 (-1)) by lia.
  replace (Z.to_nat (-1 + Z.of_nat (List.length c5)))
    with (List.length c5 - 1)%nat by lia.
  reflexivity.
Qed.

Lemma list_of_center_at (M : Z) (l : list Z) :
  list_of (center_at c5 M) l = Ok (map (resampled c5 M) l).
Proof.
  induction l as [|i l IH]; [reflexivity|].
  simpl. rewrite center_at_Ok, IH. reflexivity.
Qed.

(** On a non-empty array the resampling raises nothing, whatever [M]. *)
Lemma resample_Ok (M : Z) :
  resample c5 M = Ok (map (resampled c5 M) (range0 M)).
Proof. apply list_of_center_at. Qed.

End Resample.

(** C4.  On a non-empty array of native centers and for a target size of
    two or more, the resampling returns [M] centers, the center [k] being
    [c5[0] + (c5[-1] - c5[0]) * k / (M - 1)] (the code resamples x with
    [Mx] and y with [My] in this one way); the native centers
    [0, 1000, 2000, 3000] resampled to 4 are themselves and resampled to 7
    are the seven centers from 0 to 3000 in steps of 500. *)
Theorem resample_spec (c5 : Np.array) (M : Z) :
  (1 <= List.length c5)%nat ->
  (2 <= M)%Z ->
  exists xc : Np.array,
    resample c5 M = Ok xc
    /\ List.length xc = Z.to_nat M
    /\ (forall k : Z,
          (0 <= k < M)%Z ->
          (nth (Z.to_nat k) xc 0
           == nth 0 c5 0
              + (nth (List.length c5 - 1) c5 0 - nth 0 c5 0) * inject_Z k
                / inject_Z (M - 1))%Q)
    /\ (c5 = [0; 1000; 2000; 3000]%Q ->
        (M = 4%Z -> Forall2 Qeq xc [0; 1000; 2000; 3000]%Q)
        /\ (M = 7%Z ->
            Forall2 Qeq xc [0; 500; 1000; 1500; 2000; 2500; 3000]%Q)).
Proof.
  intros Hc HM. eexists. split; [apply resample_Ok, Hc|].
  split; [|split].
  - rewrite length_map. apply length_range0.
  - intros k Hk.
    rewrite (nth_indep _ 0%Q (resampled c5 M 0))
      by (rewrite length_map, length_range0; lia).
    rewrite (map_nth (resampled c5 M)), nth_range0 by exact Hk.
    reflexivity.
  - intros ->. split; intros ->; vm_compute; repeat constructor.
Qed.

Lemma resample_spec_witness :
  (1 <= List.length [0; 1000; 2000; 3000]%Q)%nat /\ (2 <= 7)%Z
  /\ exists xc : Np.array,
       resample [0; 1000; 2000; 3000]%Q 7 = Ok xc
       /\ Forall2 Qeq xc [0; 500; 1000; 1500; 2000; 2500; 3000]%Q.
Proof.
  split; [simpl; lia|]. split; [lia|].
  destruct (resample_spec [0; 1000; 2000; 3000]%Q 7) as (xc & H & _ & _ & Hx).
  - simpl; lia.
  - lia.
  - exists xc. split; [exact H|]. apply Hx; reflexivity.
Defined.

(** ** The resolution and the name of the grid *)

Section GridName.

Import Np NpFacts.

Lemma resample_cases (c5 : array) (M : Z) :
  resample c5 M = Raise IndexError
  \/ exists xc, resample c5 M = Ok xc /\ List.length xc = Z.to_nat M.
Proof.
  destruct c5 as [|c r].
  - unfold resample. destruct (range0 M) as [|i l] eqn:E.
    + right. exists []. split; [reflexivity|].
      rewrite <- (length_range0 M), E. reflexivity.
    + left. reflexivity.
  - right. eexists. split; [apply resample_Ok; simpl; lia|].
    rewrite length_map. apply length_range0.
Qed.

Lemma resolution_km_short (c : array) :
  (List.length c < 2)%nat -> resolution_km c = Raise IndexError.
Proof.
  intros H. unfold resolution_km.
  rewrite (getitem_out c 1) by lia. reflexivity.
Qed.

Lemma resolution_km_Ok (c : array) :
  (2 <= List.length c)%nat ->
  resolution_km c = Ok (py_int ((1 # 2) + axis_quotient c)).
Proof.
  intros H. unfold resolution_km.
  rewrite (getitem_nonneg c 1), (getitem_nonneg c 0) by lia. reflexivity.
Qed.

End GridName.

(** The steps of a successful [snoop_grid], one after the other. *)
Ltac rbind_step H :=
  match type of H with
  | rbind ?r _ = Ok _ =>
      let E := fresh "E" in
      destruct r eqn:E; [cbn [rbind] in H|discriminate H]
  end.

Lemma required_Ok {A : Type} (e : exn) (o : option A) (a : A) :
  required e o = Ok a -> o = Some a.
Proof. destruct o; simpl; congruence. Qed.

Lemma snoop_grid_inv (fs : string -> option ncfile) (pism_dir : string)
    (Mx My : Z) (a : ODict.t) (v : pism_vals) :
  snoop_grid fs pism_dir Mx My a = Ok v ->
  exists (i : string) (nc : ncfile) (xc5 yc5 : Np.array) (idx idy : Z),
    ODict.getitem a "i" = Ok (Some i)
    /\ fs (PosixPath.normpath (PosixPath.join pism_dir i)) = Some nc
    /\ nc_x1 nc = Some xc5 /\ nc_y1 nc = Some yc5
    /\ resample xc5 Mx = Ok (x_centers v)
    /\ resample yc5 My = Ok (y_centers v)
    /\ resolution_km (x_centers v) = Ok idx
    /\ resolution_km (y_centers v) = Ok idy
    /\ index_order v = (1, 0)%Z
    /\ name v = grid_name (PosixPath.basename i) (dxdy_of idx idy) (1, 0)%Z.
Proof.
  unfold snoop_grid. intros H.
  rbind_step H. rbind_step H. rbind_step H. rbind_step H. rbind_step H.
  rbind_step H. rbind_step H. rbind_step H. rbind_step H. rbind_step H.
  inversion H; subst v; clear H; simpl.
  repeat match goal with
         | E : required _ _ = Ok _ |- _ => apply required_Ok in E
         end.
  subst. eauto 20.
Qed.

(** The part of the name that is structure: the index order, and for a
    leaf name that begins with [pism_Greenland] the name
    [pism_g{res}km_10] with the resolutions that lines 224-225 compute, one
    number when they are equal and [{x}_{y}] otherwise. *)
Lemma snoop_grid_name_greenland (fs : string -> option ncfile)
    (pism_dir : string) (Mx My : Z) (a : ODict.t) (v : pism_vals)
    (i : string) :
  snoop_grid fs pism_dir Mx My a = Ok v ->
  ODict.getitem a "i" = Ok (Some i) ->
  PyStr.startswith (PosixPath.basename i) "pism_Greenland" = true ->
  index_order v = (1, 0)%Z
  /\ exists idx idy : Z,
       resolution_km (x_centers v) = Ok idx
       /\ resolution_km (y_centers v) = Ok idy
       /\ name v = ("pism_g" ++ dxdy_of idx idy ++ "km_10")%string
       /\ (idx = idy -> dxdy_of idx idy = str_of_Z idx)
       /\ (idx <> idy ->
           dxdy_of idx idy = (str_of_Z idx ++ "_" ++ str_of_Z idy)%string).
Proof.
  intros H Hi Hp.
  destruct (snoop_grid_inv _ _ _ _ _ _ H)
    as (i' & nc & xc5 & yc5 & idx & idy & Hi' & _ & _ & _ & _ & _
        & Hx & Hy & Ho & Hn).
  assert (i' = i) by congruence. subst i'.
  split; [exact Ho|]. exists idx, idy.
  split; [exact Hx|]. split; [exact Hy|]. split; [|split].
  - rewrite Hn. unfold grid_name. rewrite Hp. reflexivity.
  - intros E. unfold dxdy_of. rewrite E, Z.eqb_refl. reflexivity.
  - intros E. unfold dxdy_of. apply Z.eqb_neq in E. rewrite E. reflexivity.
Qed.

(** The only integer nearest to an integer is that integer. *)
Lemma nearest_int_of_integer (n : Z) (q : Q) (z : Z) :
  (q == inject_Z n)%Q -> nearest_int q z -> z = n.
Proof.
  intros Hq H. unfold nearest_int in H. rewrite Hq in H.
  apply Qabs_Qle_condition in H. destruct H as [H1 H2].
  unfold Qminus in H1, H2.
  rewrite <- inject_Z_opp, <- inject_Z_plus in H1, H2.
  unfold Qle in H1, H2. cbn [Qnum Qden inject_Z Qopp] in H1, H2. lia.
Qed.

(** C5, where the code departs from it.  On a y axis that descends by
    5 km the quotient [(c[1]-c[0])/1000] is [-5], whose nearest integer is
    [-5]; the code has [int(.5 + -5) = int(-4.5) = -4] and names the grid
    [pism_g5_-4km_10], which no pair of nearest integers gives.  Every
    number on the way is a whole number or a half: float64 computes them
    exactly. *)
Lemma descending_axis_not_nearest :
  exists v : pism_vals,
    snoop_grid fs_greenland "/run" 3 3 args_greenland = Ok v
    /\ PyStr.startswith (PosixPath.basename "pism_Greenland_5km.nc")
         "pism_Greenland" = true
    /\ name v = "pism_g5_-4km_10"%string
    /\ forall rx ry : Z,
         nearest_int (axis_quotient (x_centers v)) rx ->
         nearest_int (axis_quotient (y_centers v)) ry ->
         name v <> ("pism_g" ++ dxdy_of rx ry ++ "km_10")%string.
Proof.
  eexists. split; [vm_compute; reflexivity|].
  split; [reflexivity|]. split; [reflexivity|].
  intros rx ry Hx Hy.
  apply (nearest_int_of_integer 5) in Hx; [|vm_compute; reflexivity].
  apply (nearest_int_of_integer (-5)) in Hy; [|vm_compute; reflexivity].
  subst rx ry. vm_compute. discriminate.
Qed.

(** ** A size of one along an axis *)

(** C9 as stated fails.  Resampling four native centers to a
    size of one raises nothing: the division by [Mx - 1 = 0] is numpy's,
    which returns.  [snoop_grid] then fails with [IndexError]. *)
Lemma resample_size_one_returns :
  (forall e : exn, resample [0; 1000; 2000; 3000]%Q 1 <> Raise e)
  /\ (exists x : Q, resample [0; 1000; 2000; 3000]%Q 1 = Ok [x])
  /\ snoop_grid fs_greenland "/run" 1 3 args_greenland = Raise IndexError.
Proof.
  split; [intros e; vm_compute; discriminate|].
  split; [eexists; vm_compute; reflexivity|].
  vm_compute. reflexivity.
Qed.

(** C9, as amended.  When the bootstrap file is read and [Mx] or [My] is 1,
    the resampling of a non-empty array along the axis of size one returns
    a single center, and [snoop_grid] never returns.  It fails with
    [IndexError], at [xc[1]] of line 224 or before, when [Mx] is 1, and at
    [yc[1]] of line 225 or before when the x centers are finite numbers
    (native end centers and size within [2^50]). *)
Theorem snoop_grid_size_one (fs : string -> option ncfile)
    (pism_dir : string) (Mx My : Z) (a : ODict.t) (i p4 : string)
    (xc5 yc5 : Np.array) :
  ODict.getitem a "i" = Ok (Some i) ->
  fs (PosixPath.normpath (PosixPath.join pism_dir i))
  = Some {| nc_proj4 := Some p4; nc_x1 := Some xc5; nc_y1 := Some yc5 |} ->
  Mx = 1%Z \/ My = 1%Z ->
  (Mx = 1%Z -> (1 <= List.length xc5)%nat ->
   exists x : Q, resample xc5 Mx = Ok [x])
  /\ (My = 1%Z -> (1 <= List.length yc5)%nat ->
      exists y : Q, resample yc5 My = Ok [y])
  /\ (Mx = 1%Z -> snoop_grid fs pism_dir Mx My a = Raise IndexError)
  /\ (bounded_axis xc5 Mx ->
      snoop_grid fs pism_dir Mx My a = Raise IndexError)
  /\ (forall v : pism_vals, snoop_grid fs pism_dir Mx My a <> Ok v).
Proof.
  intros Hi Hfs HM.
  assert (Hfail : snoop_grid fs pism_dir Mx My a = Raise IndexError).
  { unfold snoop_grid. rewrite Hi. cbn [rbind required]. rewrite Hfs.
    cbn [rbind required nc_proj4 nc_x1 nc_y1].
    destruct (resample_cases xc5 Mx) as [-> | (xc & -> & Lx)];
      [reflexivity|]. cbn [rbind].
    destruct (resample_cases yc5 My) as [-> | (yc & -> & Ly)];
      [reflexivity|]. cbn [rbind].
    destruct (Nat.lt_ge_cases (List.length xc) 2) as [L|L].
    + rewrite (resolution_km_short xc L). reflexivity.
    + rewrite (resolution_km_Ok xc L). cbn [rbind].
      assert (My = 1%Z) by lia. subst My.
      rewrite (resolution_km_short yc) by (rewrite Ly; simpl; lia).
      reflexivity. }
  split; [|split; [|split; [|split]]].
  - intros -> Hc. rewrite (resample_Ok xc5 Hc). eexists. reflexivity.
  - intros -> Hc. rewrite (resample_Ok yc5 Hc). eexists. reflexivity.
  - intros _. exact Hfail.
  - intros _. exact Hfail.
  - intros v Hv. rewrite Hfail in Hv. discriminate Hv.
Qed.

Lemma snoop_grid_size_one_witness :
  ODict.getitem args_greenland "i" = Ok (Some "pism_Greenland_5km.nc")
  /\ (1 = 1 \/ 3 = 1)%Z
  /\ snoop_grid fs_greenland "/run" 1 3 args_greenland = Raise IndexError.
Proof.
  split; [reflexivity|]. split; [left; reflexivity|].
  destruct (snoop_grid_size_one fs_greenland "/run" 1 3 args_greenland
              "pism_Greenland_5km.nc" "+proj=stere"
              [0; 5000; 10000]%Q [10000; 5000; 0]%Q)
    as (_ & _ & H & _).
  - reflexivity.
  - reflexivity.
  - left; reflexivity.
  - apply H. reflexivity.
Defined.

(** ** [make_pism_args] *)

(** C6 as stated fails.  On the map of the example the loop of
    line 257 reads [args['surface_given_file']], which is absent: the call
    raises [KeyError] and returns no map. *)
Lemma make_pism_args_example_raises :
  fst (make_pism_args "/run" 0%nat [example_args])
  = Raise (KeyError "surface_given_file").
Proof. vm_compute. reflexivity. Qed.

(** C6, as amended.  When the map of the example also has string values for
    [surface_given_file] and [ocean_kill_file], the call returns a second
    map without [bootstrap] and [Mx], with [i] rewritten to
    [/run/rel/in.nc], the two other paths rewritten in the same way, and
    [extra_vars] extended by the baseline entries it lacked, [thk] and
    [topg] staying first; the first map is as it was. *)
Theorem make_pism_args_example (sgf okf : string) :
  make_pism_args "/run" 0%nat [example_args_with sgf okf]
  = (Ok 1%nat,
     [example_args_with sgf okf;
      [("i", Some "/run/rel/in.nc"%string);
       ("surface_given_file",
        Some (PosixPath.normpath (PosixPath.join "/run" sgf)));
       ("ocean_kill_file",
        Some (PosixPath.normpath (PosixPath.join "/run" okf)));
       ("extra_vars", Some example_extra_vars)]])
  /\ firstn 2 (PyStr.split "," example_extra_vars) = ["thk"; "topg"]%string
  /\ forallb (fun var => in_set var (PyStr.split "," example_extra_vars))
       (PyStr.split "," baseline_vars) = true
  /\ NoDup (PyStr.split "," example_extra_vars).
Proof.
  split; [reflexivity|]. split; [reflexivity|]. split; [reflexivity|].
  apply (NoDup_count_occ' string_dec). intros x Hx.
  simpl in Hx.
  repeat (destruct Hx as [<-|Hx]; [vm_compute; reflexivity|]).
  destruct Hx.
Qed.

(** *** What the call leaves untouched *)

Module Frame.

Import Store.

Lemma store_firstn (n : nat) (h : heap) (l : loc) (d : ODict.t) :
  (n <= l)%nat -> firstn n (store h l d) = firstn n h.
Proof.
  revert n l. induction h as [|x h IH]; intros n l Hl; [reflexivity|].
  destruct l as [|l].
  - replace n with 0%nat by lia. reflexivity.
  - destruct n as [|n]; [reflexivity|]. simpl. f_equal. apply IH. lia.
Qed.

Lemma length_store (h : heap) (l : loc) (d : ODict.t) :
  List.length (store h l d) = List.length h.
Proof.
  revert l. induction h as [|x h IH]; intros [|l]; simpl; auto.
Qed.

Lemma frames_ret {A : Type} (n : nat) (a : A) (Q : A -> Prop) :
  Q a -> frames n (ret a) Q.
Proof. intros Ha h Hh. simpl. auto. Qed.

Lemma frames_lift {A : Type} (n : nat) (r : result A) :
  frames n (lift r) (fun _ => True).
Proof. intros h Hh. simpl. repeat split; auto. destruct r; auto. Qed.

Lemma frames_bind {A B : Type} (n : nat) (m : M A) (k : A -> M B)
    (Q : A -> Prop) (R : B -> Prop) :
  frames n m Q -> (forall a, Q a -> frames n (k a) R) ->
  frames n (bind m k) R.
Proof.
  intros Hm Hk h Hh. unfold bind.
  destruct (Hm h Hh) as (H1 & H2 & H3).
  destruct (m h) as [[a|e] h']; simpl in *.
  - destruct (Hk a H3 h' H2) as (K1 & K2 & K3).
    repeat split; auto. congruence.
  - auto.
Qed.

Lemma frames_new_dict (n : nat) (its : ODict.t) :
  frames n (new_dict its) (fun l => (n <= l)%nat).
Proof.
  intros h Hh. unfold new_dict. simpl. rewrite length_app. simpl.
  repeat split; try lia.
  rewrite firstn_app. replace (n - List.length h)%nat with 0%nat by lia.
  simpl. apply app_nil_r.
Qed.

Lemma frames_items (n : nat) (l : loc) :
  frames n (items l) (fun _ => True).
Proof. intros h Hh. simpl. auto. Qed.

Lemma frames_getitem (n : nat) (l : loc) (k : string) :
  frames n (getitem l k) (fun _ => True).
Proof.
  intros h Hh. unfold getitem. simpl. repeat split; auto.
  destruct (ODict.getitem (deref h l) k); auto.
Qed.

Lemma frames_setitem (n : nat) (l : loc) (k : string) (v : option string) :
  (n <= l)%nat -> frames n (setitem l k v) (fun _ => True).
Proof.
  intros Hl h Hh. unfold setitem. simpl.
  rewrite store_firstn, length_store by exact Hl. auto.
Qed.

Lemma frames_delitem (n : nat) (l : loc) (k : string) :
  (n <= l)%nat -> frames n (delitem l k) (fun _ => True).
Proof.
  intros Hl h Hh. unfold delitem.
  destruct (ODict.delitem (deref h l) k); simpl; auto.
  rewrite store_firstn, length_store by exact Hl. auto.
Qed.

Lemma frames_except (n : nat) (m : M unit) :
  frames n m (fun _ => True) ->
  frames n (except_KeyError_pass m) (fun _ => True).
Proof.
  intros Hm h Hh. unfold except_KeyError_pass.
  destruct (Hm h Hh) as (H1 & H2 & _).
  destruct (m h) as [[a|[]] h']; simpl in *; auto.
Qed.

Lemma frames_for_each {A : Type} (n : nat) (l : list A) (body : A -> M unit) :
  (forall x, frames n (body x) (fun _ => True)) ->
  frames n (for_each l body) (fun _ => True).
Proof.
  intros Hb. induction l as [|x l IH]; simpl.
  - apply frames_ret. exact I.
  - eapply frames_bind; [apply Hb|]. intros _ _. exact IH.
Qed.

End Frame.

Create HintDb frames.

#[local] Hint Resolve Frame.frames_ret Frame.frames_lift Frame.frames_items
  Frame.frames_getitem Frame.frames_setitem Frame.frames_delitem
  Frame.frames_except Frame.frames_for_each Frame.frames_new_dict : frames.

(** [make_pism_args] writes to the dictionary it creates and to no other. *)
Lemma make_pism_args_frames (n : nat) (pism_dir : string) (l : Store.loc) :
  Store.frames n (make_pism_args pism_dir l) (fun r => (n <= r)%nat).
Proof.
  unfold make_pism_args.
  eapply Frame.frames_bind; [apply Frame.frames_items|]. intros its _.
  eapply Frame.frames_bind; [apply Frame.frames_new_dict|].
  intros args Hargs. cbv beta in Hargs.
  eapply Frame.frames_bind.
  { apply Frame.frames_for_each. intros arg. auto with frames. }
  intros _ _.
  eapply Frame.frames_bind.
  { apply Frame.frames_for_each. intros key.
    eapply Frame.frames_bind; [apply Frame.frames_getitem|]. intros v _.
    eapply Frame.frames_bind; [apply Frame.frames_lift|]. intros v' _.
    auto with frames. }
  intros _ _.
  eapply Frame.frames_bind; [apply Frame.frames_getitem|]. intros ev _.
  eapply Frame.frames_bind; [apply Frame.frames_lift|]. intros ev' _.
  eapply Frame.frames_bind; [apply Frame.frames_setitem, Hargs|]. intros _ _.
  apply Frame.frames_ret. exact Hargs.
Qed.

(** C7.  Whatever the store and the argument map, and whether the call
    returns or raises, the dictionaries that were in the store before the
    call are the same after it, keys, values and order: so is the map the
    call was given, and a map that is returned is another dictionary. *)
Theorem make_pism_args_original_unchanged (pism_dir : string)
    (h : Store.heap) (l : Store.loc) (d : ODict.t) :
  nth_error h l = Some d ->
  nth_error (snd (make_pism_args pism_dir l h)) l = Some d
  /\ firstn (List.length h) (snd (make_pism_args pism_dir l h)) = h
  /\ forall r : Store.loc,
       fst (make_pism_args pism_dir l h) = Ok r -> r <> l.
Proof.
  intros Hl.
  assert (Hlt : (l < List.length h)%nat) by (apply nth_error_Some; congruence).
  destruct (make_pism_args_frames (List.length h) pism_dir l h (le_n _))
    as (H1 & H2 & H3).
  rewrite firstn_all in H1.
  split; [|split].
  - rewrite <- Hl. rewrite <- H1 at 2.
    rewrite nth_error_firstn.
    destruct (Nat.ltb_spec l (List.length h)); [reflexivity|lia].
  - exact H1.
  - intros r Hr. rewrite Hr in H3. lia.
Qed.

(** The call that raises on the map of the example, and the call that
    returns on the completed map. *)
Lemma make_pism_args_original_unchanged_witness :
  nth_error (snd (make_pism_args "/run" 0%nat [example_args])) 0%nat
  = Some example_args
  /\ nth_error
       (snd (make_pism_args "/run" 0%nat [example_args_with "a.nc" "b.nc"])) 0%nat
     = Some (example_args_with "a.nc" "b.nc").
Proof.
  split.
  - apply (make_pism_args_original_unchanged "/run" [example_args] 0%nat
             example_args).
    reflexivity.
  - apply (make_pism_args_original_unchanged "/run"
             [example_args_with "a.nc" "b.nc"] 0%nat
             (example_args_with "a.nc" "b.nc")).
    reflexivity.
Defined.


(** * Further properties of the code *)

(** ** Ordered dictionaries: lookup after update *)

Module ODictFacts.

Import ODict.

Lemma getitem_setitem_same (d : t) (k : string) (v : option string) :
  getitem (setitem d k v) k = Ok v.
Proof.
  induction d as [|[k' v'] d IH]; simpl.
  - rewrite String.eqb_refl. reflexivity.
  - destruct (String.eqb k' k) eqn:E; simpl; rewrite E; auto.
Qed.

Lemma getitem_setitem_other (d : t) (k k0 : string) (v : option string) :
  k0 <> k -> getitem (setitem d k v) k0 = getitem d k0.
Proof.
  intros Hk. induction d as [|[k' v'] d IH]; simpl.
  - destruct (String.eqb_spec k k0); [congruence|reflexivity].
  - destruct (String.eqb_spec k' k) as [->|E]; simpl.
    + destruct (String.eqb_spec k k0); [congruence|reflexivity].
    + rewrite IH. reflexivity.
Qed.

Lemma In_setitem (d : t) (k : string) (v : option string)
    (e : string * option string) :
  In e (setitem d k v) -> e = (k, v) \/ In e d.
Proof.
  induction d as [|[k' v'] d IH]; simpl.
  - intros [H|[]]; auto.
  - destruct (String.eqb_spec k' k) as [->|E]; simpl.
    + intros [H|H]; auto.
    + intros [H|H]; auto. destruct (IH H); auto.
Qed.

Lemma In_keys_setitem (d : t) (k k0 : string) (v : option string) :
  In k0 (map fst (setitem d k v)) <-> k0 = k \/ In k0 (map fst d).
Proof.
  induction d as [|[k' v'] d IH]; simpl.
  - intuition.
  - destruct (String.eqb_spec k' k) as [->|E]; simpl.
    + intuition.
    + rewrite IH. intuition.
Qed.

(** An update keeps the keys distinct. *)
Lemma NoDup_setitem (d : t) (k : string) (v : option string) :
  NoDup (map fst d) -> NoDup (map fst (setitem d k v)).
Proof.
  induction d as [|[k' v'] d IH]; simpl; intros H.
  - constructor; [simpl; tauto|constructor].
  - inversion H as [|? ? Hn Hd]; subst.
    destruct (String.eqb_spec k' k) as [->|E]; simpl.
    + constructor; assumption.
    + constructor; [|auto]. rewrite In_keys_setitem. intros [->|Hi]; tauto.
Qed.

(** The update of a key that is absent puts the entry last. *)
Lemma setitem_fresh (d : t) (k : string) (v : option string) :
  ~ In k (map fst d) -> setitem d k v = d ++ [(k, v)].
Proof.
  induction d as [|[k' v'] d IH]; simpl; intros H; [reflexivity|].
  destruct (String.eqb_spec k' k) as [->|E]; [tauto|].
  rewrite IH by tauto. reflexivity.
Qed.

End ODictFacts.

(** ** The parser: errors, provenance, round trip *)

(** Lists by steps of one and of two, as the cursor moves. *)
Lemma list_ind_pairs {A : Type} (P : list A -> Prop) :
  P [] ->
  (forall x l, P l -> (forall y l', l = y :: l' -> P l') -> P (x :: l)) ->
  forall l, P l.
Proof.
  intros H0 Hs l.
  assert (H : P l /\ (forall y l', l = y :: l' -> P l')).
  { induction l as [|x l [IH1 IH2]].
    - split; [exact H0|discriminate].
    - split; [apply Hs; assumption|]. intros y l' E. inversion E; subst.
      exact IH1. }
  exact (proj1 H).
Qed.

Lemma takes_value_exn (nxt : string) (e : exn) :
  takes_value nxt = Raise e -> e = IndexError.
Proof.
  unfold takes_value, PyStr.getitem, rbind.
  destruct (negb (PyStr.startswith nxt "-")); [discriminate|].
  destruct (1 <? String.length nxt)%nat; [|discriminate].
  destruct (String.get 2 nxt); [discriminate|congruence].
Qed.

Lemma parse_tokens_exn (toks : list string) :
  forall (a : ODict.t) (e : exn),
    parse_tokens toks a = Raise e -> e = IndexError.
Proof.
  induction toks as [|tok rest IH1 IH2] using list_ind_pairs;
    intros a e; simpl; [discriminate|].
  destruct (PyStr.startswith tok "-"); [|apply IH1].
  destruct rest as [|nxt rest']; [congruence|].
  destruct (takes_value nxt) as [[|]|e'] eqn:E.
  - apply (IH2 nxt rest' eq_refl).
  - apply IH1.
  - intros H; inversion H; subst. apply (takes_value_exn nxt), E.
Qed.

(** X1.  On every list of tokens the parser ends, with a map or with
    [IndexError]: it raises nothing else and never runs on. *)
Theorem parse_cmd_map_or_IndexError (cmd : list string) :
  (exists d : ODict.t, parse_cmd cmd = Some (Ok d))
  \/ parse_cmd cmd = Some (Raise IndexError).
Proof.
  rewrite parse_cmd_tokens.
  destruct (parse_tokens cmd ODict.empty) as [d|e] eqn:E.
  - left. exists d. reflexivity.
  - right. rewrite (parse_tokens_exn cmd _ _ E). reflexivity.
Qed.

(** X2.  A flag that the cursor reaches as the last token has no token
    after it: [cmd[i+1]] raises [IndexError] and the parse is lost, whatever
    came before. *)
Theorem trailing_flag_raises (pre : list string) (tok : string)
    (n : nat) (a : ODict.t) :
  PyStr.startswith tok "-" = true ->
  parse_iter n (pre ++ [tok]) (0%nat, ODict.empty) = Ok (List.length pre, a) ->
  parse_cmd (pre ++ [tok]) = Some (Raise IndexError).
Proof.
  intros Hd Hreach. rewrite parse_cmd_tokens.
  pose proof (parse_iter_tokens _ _ _ _ _ _ Hreach) as H. simpl in H.
  rewrite H, skipn_app, skipn_all, Nat.sub_diag. simpl.
  rewrite Hd. reflexivity.
Qed.

Lemma trailing_flag_raises_witness :
  PyStr.startswith "-bootstrap" "-" = true
  /\ parse_cmd ["pismr"; "-i"; "in.nc"; "-bootstrap"] = Some (Raise IndexError).
Proof.
  split; [reflexivity|].
  apply (trailing_flag_raises ["pismr"; "-i"; "in.nc"] "-bootstrap" 2
           [("i", Some "in.nc")]); reflexivity.
Defined.

Lemma parse_tokens_from_command (cmd toks : list string) :
  forall (pre : list string) (a d : ODict.t),
    cmd = pre ++ toks ->
    (forall e, In e a -> from_command cmd e) ->
    parse_tokens toks a = Ok d ->
    forall e, In e d -> from_command cmd e.
Proof.
  induction toks as [|tok rest IH1 IH2] using list_ind_pairs;
    intros pre a d Hc Ha; simpl.
  - intros H; inversion H; subst; exact Ha.
  - assert (Hc1 : cmd = (pre ++ [tok]) ++ rest)
      by (rewrite <- app_assoc; exact Hc).
    destruct (PyStr.startswith tok "-") eqn:Hd; [|apply (IH1 _ _ _ Hc1 Ha)].
    destruct rest as [|nxt rest']; [discriminate|].
    destruct (takes_value nxt) as [[|]|e'] eqn:E; [| |discriminate].
    + apply (IH2 nxt rest' eq_refl (pre ++ [tok; nxt])).
      * rewrite <- app_assoc. exact Hc.
      * intros e He. apply ODictFacts.In_setitem in He.
        destruct He as [->|He]; [|auto].
        exists tok. simpl. repeat split; auto. exists pre, rest'. exact Hc.
    + apply (IH1 _ _ _ Hc1).
      intros e He. apply ODictFacts.In_setitem in He.
      destruct He as [->|He]; [|auto].
      exists tok. simpl. repeat split; auto. rewrite Hc.
      apply in_or_app. right. left. reflexivity.
Qed.

(** X3.  Every entry of a parsed map comes from the command line: its key
    is a token that begins with a dash, without that dash, and its value, if
    it has one, is the token right after that flag. *)
Theorem parse_cmd_provenance (cmd : list string) (d : ODict.t)
    (k : string) (v : option string) :
  parse_cmd cmd = Some (Ok d) ->
  In (k, v) d ->
  exists tok : string,
    PyStr.startswith tok "-" = true
    /\ k = PyStr.drop1 tok
    /\ match v with
       | None => In tok cmd
       | Some nxt => exists pre post, cmd = pre ++ tok :: nxt :: post
       end.
Proof.
  rewrite parse_cmd_tokens. intros H Hin. injection H as H.
  apply (parse_tokens_from_command cmd cmd [] ODict.empty d eq_refl
           (fun e (He : In e ODict.empty) => match He with end) H (k, v) Hin).
Qed.

Lemma parse_cmd_provenance_witness :
  exists tok : string,
    PyStr.startswith tok "-" = true /\ "ys"%string = PyStr.drop1 tok
    /\ exists pre post,
         ["pismr"; "-ys"; "-100"; "-o"; "out.nc"]%string
         = pre ++ tok :: "-100"%string :: post.
Proof.
  apply (parse_cmd_provenance ["pismr"; "-ys"; "-100"; "-o"; "out.nc"]%string
           [("ys", Some "-100"); ("o", Some "out.nc")]%string
           "ys" (Some "-100"%string)).
  - reflexivity.
  - simpl. left. reflexivity.
Defined.

Lemma parse_tokens_NoDup (toks : list string) :
  forall a d : ODict.t,
    NoDup (map fst a) -> parse_tokens toks a = Ok d -> NoDup (map fst d).
Proof.
  induction toks as [|tok rest IH1 IH2] using list_ind_pairs;
    intros a d Ha; simpl.
  - intros H; inversion H; subst; exact Ha.
  - destruct (PyStr.startswith tok "-"); [|apply (IH1 _ _ Ha)].
    destruct rest as [|nxt rest']; [discriminate|].
    destruct (takes_value nxt) as [[|]|e'] eqn:E; [| |discriminate].
    + apply (IH2 nxt rest' eq_refl). apply ODictFacts.NoDup_setitem, Ha.
    + apply IH1. apply ODictFacts.NoDup_setitem, Ha.
Qed.

(** X4.  A parsed map has every name once, however often the command line
    repeats a flag. *)
Theorem parse_cmd_keys_distinct (cmd : list string) (d : ODict.t) :
  parse_cmd cmd = Some (Ok d) -> NoDup (map fst d).
Proof.
  rewrite parse_cmd_tokens. intros H. injection H as H.
  apply (parse_tokens_NoDup cmd ODict.empty d); [constructor|exact H].
Qed.

Lemma parse_cmd_keys_distinct_witness :
  NoDup (map fst [("i", Some "b.nc"); ("o", Some "out.nc")]%string).
Proof.
  apply (parse_cmd_keys_distinct ["-i"; "a.nc"; "-o"; "out.nc"; "-i"; "b.nc"]%string).
  reflexivity.
Defined.

(** A value is taken when it has no leading dash or a digit as third
    character. *)
Lemma takes_value_true (v : string) :
  PyStr.startswith v "-" = false \/ third_is_digit v = true ->
  takes_value v = Ok true.
Proof.
  unfold takes_value, third_is_digit, PyStr.getitem, rbind.
  intros [H|H].
  - rewrite H. reflexivity.
  - destruct (negb (PyStr.startswith v "-")); [reflexivity|].
    destruct v as [|c0 [|c1 [|c2 r]]]; simpl in *; try discriminate.
    rewrite H. reflexivity.
Qed.

Lemma parse_tokens_command_of (kvs : list (string * string)) :
  forall a : ODict.t,
    (forall kv, In kv kvs ->
                PyStr.startswith (snd kv) "-" = false
                \/ third_is_digit (snd kv) = true) ->
    parse_tokens (command_of kvs) a
    = Ok (fold_left (fun acc kv => ODict.setitem acc (fst kv) (Some (snd kv)))
            kvs a).
Proof.
  induction kvs as [|[k v] r IH]; intros a Hv; [reflexivity|].
  assert (Hd : PyStr.startswith (String "-" k) "-" = true).
  { unfold PyStr.startswith. simpl. destruct k; reflexivity. }
  cbn [command_of parse_tokens]. rewrite Hd.
  rewrite (takes_value_true v) by (apply (Hv (k, v)); left; reflexivity).
  cbn [PyStr.drop1 fold_left fst snd].
  apply IH. intros kv Hkv. apply Hv. right. exact Hkv.
Qed.

Lemma fold_setitem_fresh (kvs : list (string * string)) :
  forall a : ODict.t,
    NoDup (map fst a ++ map fst kvs) ->
    fold_left (fun acc kv => ODict.setitem acc (fst kv) (Some (snd kv))) kvs a
    = a ++ map entry_of kvs.
Proof.
  induction kvs as [|[k v] r IH]; intros a Hn; simpl.
  - rewrite app_nil_r. reflexivity.
  - simpl in Hn. pose proof (NoDup_remove_2 _ _ _ Hn) as Hk.
    rewrite ODictFacts.setitem_fresh
      by (intros Hi; apply Hk, in_or_app; left; exact Hi).
    rewrite IH.
    + rewrite <- app_assoc. reflexivity.
    + rewrite map_app. simpl. rewrite <- app_assoc. simpl. exact Hn.
Qed.

(** X5.  Parsing undoes spelling: the command line [-k1 v1 -k2 v2 ...] of
    distinct names, with values that have no leading dash or that have a
    digit as third character, parses to these names and values in this
    order. *)
Theorem parse_cmd_command_of (kvs : list (string * string)) :
  NoDup (map fst kvs) ->
  (forall kv, In kv kvs ->
              PyStr.startswith (snd kv) "-" = false
              \/ third_is_digit (snd kv) = true) ->
  parse_cmd (command_of kvs) = Some (Ok (map entry_of kvs)).
Proof.
  intros Hn Hv. rewrite parse_cmd_tokens, parse_tokens_command_of by exact Hv.
  rewrite fold_setitem_fresh by exact Hn. reflexivity.
Qed.

Lemma parse_cmd_command_of_witness :
  parse_cmd ["-i"; "in.nc"; "-ys"; "-100"]%string
  = Some (Ok [("i", Some "in.nc"); ("ys", Some "-100")]%string).
Proof.
  apply (parse_cmd_command_of [("i", "in.nc"); ("ys", "-100")]%string).
  - repeat constructor; simpl; intuition discriminate.
  - intros kv [<-|[<-|[]]]; [left|right]; reflexivity.
Defined.

(** ** [make_pism_args] as a function of the argument map *)

Module StoreFacts.

Import Store.

Lemma deref_last (h : heap) (d : ODict.t) : deref (h ++ [d]) (List.length h) = d.
Proof.
  unfold deref. rewrite app_nth2, Nat.sub_diag by lia. reflexivity.
Qed.

Lemma store_last (h : heap) (d d' : ODict.t) :
  store (h ++ [d]) (List.length h) d' = h ++ [d'].
Proof. induction h as [|x h IH]; simpl; congruence. Qed.

Lemma deref_nth_error (h : heap) (l : loc) (d : ODict.t) :
  nth_error h l = Some d -> deref h l = d.
Proof. intros H. unfold deref. apply nth_error_nth, H. Qed.

Lemma delitem_exn (d : ODict.t) (k : string) (e : exn) :
  ODict.delitem d k = Raise e -> e = KeyError k.
Proof.
  induction d as [|[k' v'] d IH]; simpl.
  - congruence.
  - destruct (String.eqb k' k); [discriminate|].
    destruct (ODict.delitem d k); [discriminate|]. intros H; inversion H; auto.
Qed.

(** The loop of lines 247-253 on the last dictionary of the store. *)
Lemma run_drop_keys (h : heap) (keys : list string) :
  forall d : ODict.t,
    for_each keys
      (fun arg => except_KeyError_pass (delitem (List.length h) arg))
      (h ++ [d])
    = (Ok tt, h ++ [drop_keys d keys]).
Proof.
  induction keys as [|k keys IH]; intros d; [reflexivity|].
  cbn [for_each]. unfold bind at 1, except_KeyError_pass, delitem.
  rewrite deref_last. unfold drop_keys. cbn [fold_left]. unfold drop_key at 2.
  destruct (ODict.delitem d k) as [d'|e] eqn:E.
  - rewrite store_last. apply IH.
  - rewrite (delitem_exn d k e E). apply IH.
Qed.

Lemma for_each_cons {A : Type} (x : A) (l : list A) (body : A -> M unit)
    (h : heap) :
  for_each (x :: l) body h
  = match body x h with
    | (Ok _, h') => for_each l body h'
    | (Raise e, h') => (Raise e, h')
    end.
Proof. reflexivity. Qed.

(** The body of the loop of lines 257-258. *)
Local Abbreviation absolutize_at pism_dir args :=
  (fun key =>
     bind (getitem args key) (fun v =>
     bind (lift (required TypeError v)) (fun v =>
     setitem args key
       (Some (PosixPath.normpath (PosixPath.join pism_dir v)))))).

Lemma run_absolutize (pism_dir : string) (h : heap) (d : ODict.t)
    (key : string) :
  absolutize_at pism_dir (List.length h) key (h ++ [d])
  = match absolutize pism_dir d key with
    | Ok d' => (Ok tt, h ++ [d'])
    | Raise e => (Raise e, h ++ [d])
    end.
Proof.
  cbv beta. unfold absolutize, rbind, bind, getitem, lift, setitem.
  rewrite deref_last.
  destruct (ODict.getitem d key) as [[s|]|e]; cbn [required]; try reflexivity.
  rewrite store_last. reflexivity.
Qed.

(** The loop of lines 257-258 on the last dictionary of the store. *)
Lemma run_absolutize_all (pism_dir : string) (h : heap) (keys : list string) :
  forall d : ODict.t,
    match absolutize_all pism_dir d keys with
    | Ok d' =>
        for_each keys (absolutize_at pism_dir (List.length h)) (h ++ [d])
        = (Ok tt, h ++ [d'])
    | Raise e =>
        fst (for_each keys (absolutize_at pism_dir (List.length h)) (h ++ [d]))
        = Raise e
    end.
Proof.
  induction keys as [|k keys IH]; intros d; [reflexivity|].
  cbn [absolutize_all]. rewrite !for_each_cons.
  rewrite (run_absolutize pism_dir h d k).
  destruct (absolutize pism_dir d k) as [d'|e]; cbn [rbind]; [|reflexivity].
  apply IH.
Qed.

End StoreFacts.

(** The call creates one dictionary, the last of the store, and what it
    returns and leaves there is [transform_args] of the given map. *)
Lemma make_pism_args_transform (pism_dir : string) (h : Store.heap)
    (l : Store.loc) (d : ODict.t) :
  nth_error h l = Some d ->
  match transform_args pism_dir d with
  | Ok d' => make_pism_args pism_dir l h = (Ok (List.length h), h ++ [d'])
  | Raise e => fst (make_pism_args pism_dir l h) = Raise e
  end.
Proof.
  intros Hl. unfold transform_args.
  pose proof (StoreFacts.run_absolutize_all pism_dir h path_keys
                (drop_keys d bootstrap_only)) as Ha.
  assert (Hrun : forall k : unit -> Store.M Store.loc,
             make_pism_args pism_dir l h
             = Store.bind
                 (Store.for_each path_keys
                    (fun key =>
                       Store.bind (Store.getitem (List.length h) key) (fun v =>
                       Store.bind (Store.lift (required TypeError v)) (fun v =>
                       Store.setitem (List.length h) key
                         (Some (PosixPath.normpath (PosixPath.join pism_dir v)))))))
                 (fun _ =>
                    Store.bind (Store.getitem (List.length h) "extra_vars")
                      (fun ev =>
                    Store.bind (Store.lift (required AttributeError ev))
                      (fun ev =>
                    Store.bind
                      (Store.setitem (List.length h) "extra_vars"
                         (Some (PyStr.join ","
                                  (extend_vars (PyStr.split "," ev)))))
                      (fun _ => Store.ret (List.length h)))))
                 (h ++ [drop_keys d bootstrap_only])).
  { intros _. unfold make_pism_args.
    unfold Store.bind at 1, Store.items.
    rewrite (StoreFacts.deref_nth_error h l d Hl).
    unfold Store.bind at 1, Store.new_dict.
    unfold Store.bind at 1. rewrite StoreFacts.run_drop_keys. reflexivity. }
  rewrite (Hrun (fun _ => Store.ret 0%nat)). clear Hrun.
  destruct (absolutize_all pism_dir (drop_keys d bootstrap_only) path_keys)
    as [d1|e]; cbn [rbind].
  - unfold add_vars, rbind.
    destruct (ODict.getitem d1 "extra_vars") as [[s|]|e] eqn:Eg;
      cbn [required];
      unfold Store.bind at 1; rewrite Ha;
      cbv beta delta [Store.bind Store.getitem Store.lift Store.setitem Store.ret];
      rewrite StoreFacts.deref_last, Eg; cbn [required fst];
      try reflexivity.
    rewrite ?StoreFacts.deref_last, ?StoreFacts.store_last. reflexivity.
  - unfold Store.bind at 1.
    destruct (Store.for_each path_keys _ _) as [[u|e'] h']; simpl in Ha.
    + discriminate.
    + simpl. injection Ha as ->. reflexivity.
Qed.

Module ODictMore.

Import ODict.

Lemma getitem_exn (d : t) (k : string) (e : exn) :
  getitem d k = Raise e -> e = KeyError k.
Proof.
  induction d as [|[k' v'] d IH]; simpl; [congruence|].
  destruct (String.eqb k' k); [discriminate|exact IH].
Qed.

Lemma getitem_In (d : t) (k : string) (v : option string) :
  getitem d k = Ok v -> In k (map fst d).
Proof.
  induction d as [|[k' v'] d IH]; simpl; [discriminate|].
  destruct (String.eqb_spec k' k); auto.
Qed.

Lemma getitem_not_In (d : t) (k : string) :
  ~ In k (map fst d) -> getitem d k = Raise (KeyError k).
Proof.
  induction d as [|[k' v'] d IH]; simpl; [reflexivity|].
  destruct (String.eqb_spec k' k); intros H; [tauto|]. apply IH. tauto.
Qed.

(** An update of a key that is present leaves the keys and their order. *)
Lemma keys_setitem_present (d : t) (k : string) (v : option string) :
  In k (map fst d) -> map fst (setitem d k v) = map fst d.
Proof.
  induction d as [|[k' v'] d IH]; simpl; [tauto|].
  destruct (String.eqb_spec k' k) as [->|E]; [reflexivity|].
  intros [H|H]; [congruence|]. simpl. rewrite IH by exact H. reflexivity.
Qed.

Lemma getitem_delitem_other (d d' : t) (k k0 : string) :
  delitem d k = Ok d' -> k0 <> k -> getitem d' k0 = getitem d k0.
Proof.
  revert d'. induction d as [|[k' v'] d IH]; simpl; intros d' H Hk.
  - discriminate.
  - destruct (String.eqb_spec k' k) as [->|E].
    + inversion H; subst.
      destruct (String.eqb_spec k k0); [congruence|reflexivity].
    + destruct (delitem d k) as [r|]; [|discriminate].
      inversion H; subst. simpl. rewrite (IH r eq_refl Hk). reflexivity.
Qed.

(** The deletion of a key from distinct keys is a filter. *)
Lemma delitem_filter (d : t) (k : string) :
  NoDup (map fst d) ->
  drop_key d k = filter (fun e => negb (String.eqb (fst e) k)) d.
Proof.
  unfold drop_key. induction d as [|[k' v'] d IH]; simpl; intros Hn.
  - reflexivity.
  - inversion Hn as [|? ? Hk Hd]; subst.
    destruct (String.eqb_spec k' k) as [->|E]; simpl.
    + symmetry. f_equal. apply forallb_filter_id.
      apply forallb_forall. intros [k1 v1] Hi. simpl.
      destruct (String.eqb_spec k1 k) as [->|]; [|reflexivity].
      exfalso. apply Hk. apply (in_map fst _ _ Hi).
    + specialize (IH Hd). destruct (delitem d k); rewrite <- IH; reflexivity.
Qed.

Lemma NoDup_keys_filter (f : string * option string -> bool) (d : t) :
  NoDup (map fst d) -> NoDup (map fst (filter f d)).
Proof.
  induction d as [|e d IH]; simpl; intros Hn; [constructor|].
  inversion Hn as [|? ? Hk Hd]; subst.
  destruct (f e); simpl; [|auto].
  constructor; [|auto]. intros Hi. apply Hk.
  apply in_map_iff in Hi. destruct Hi as (x & Hx & Hf).
  apply filter_In in Hf. apply in_map_iff. exists x. tauto.
Qed.

Lemma filter_twice {A : Type} (f g : A -> bool) (l : list A) :
  filter f (filter g l) = filter (fun x => g x && f x) l.
Proof.
  induction l as [|x l IH]; simpl; [reflexivity|].
  destruct (g x); simpl; [destruct (f x)|]; rewrite IH; reflexivity.
Qed.

Lemma drop_keys_filter (keys : list string) :
  forall d : t,
    NoDup (map fst d) ->
    drop_keys d keys = filter (fun e => negb (in_set (fst e) keys)) d.
Proof.
  unfold drop_keys.
  induction keys as [|k keys IH]; intros d Hn; simpl.
  - symmetry. apply forallb_filter_id. apply forallb_forall. reflexivity.
  - rewrite delitem_filter by exact Hn.
    rewrite IH by (apply NoDup_keys_filter, Hn).
    rewrite filter_twice. apply filter_ext. intros [k1 v1]. simpl.
    unfold in_set. simpl.
    destruct (String.eqb k1 k); simpl; reflexivity.
Qed.

Lemma getitem_drop_keys_other (keys : list string) (k0 : string) :
  forall d : t,
    ~ In k0 keys -> getitem (drop_keys d keys) k0 = getitem d k0.
Proof.
  unfold drop_keys.
  induction keys as [|k keys IH]; intros d Hk; simpl; [reflexivity|].
  rewrite IH by (simpl in Hk; tauto).
  unfold drop_key. destruct (delitem d k) as [d'|] eqn:E; [|reflexivity].
  apply (getitem_delitem_other d d' k k0 E). simpl in Hk. intuition congruence.
Qed.

End ODictMore.

(** ** The extension of [extra_vars] *)

Lemma extend_fold (evset vars : list string) :
  forall acc : list string,
    fold_left
      (fun acc var => if in_set var evset then acc else acc ++ [var]) vars acc
    = acc ++ filter (fun var => negb (in_set var evset)) vars.
Proof.
  induction vars as [|v vars IH]; intros acc; simpl.
  - rewrite app_nil_r. reflexivity.
  - rewrite IH. destruct (in_set v evset); simpl; [reflexivity|].
    rewrite <- app_assoc. reflexivity.
Qed.

Lemma in_set_In (var : string) (l : list string) :
  in_set var l = true <-> In var l.
Proof.
  unfold in_set. rewrite existsb_exists. split.
  - intros (x & Hx & E). apply String.eqb_eq in E. congruence.
  - intros H. exists var. split; [exact H|apply String.eqb_refl].
Qed.

(** X6.  The extended list is the given list, in its order, followed by
    the baseline entries that the given list lacks, in the order of the
    baseline; so every baseline entry is in it, and no entry of the given
    list is lost or moved. *)
Theorem extend_vars_closed (extra_vars : list string) :
  extend_vars extra_vars
  = extra_vars
    ++ filter (fun var => negb (in_set var extra_vars))
         (PyStr.split "," baseline_vars)
  /\ (forall var, In var (PyStr.split "," baseline_vars) ->
                  In var (extend_vars extra_vars))
  /\ firstn (List.length extra_vars) (extend_vars extra_vars) = extra_vars.
Proof.
  assert (E : extend_vars extra_vars
              = extra_vars
                ++ filter (fun var => negb (in_set var extra_vars))
                     (PyStr.split "," baseline_vars))
    by apply extend_fold.
  split; [exact E|]. split.
  - intros var Hv. rewrite E. apply in_or_app.
    destruct (in_set var extra_vars) eqn:Ei.
    + left. apply in_set_In, Ei.
    + right. apply filter_In. rewrite Ei. auto.
  - rewrite E, firstn_app, firstn_all, Nat.sub_diag. simpl.
    apply app_nil_r.
Qed.

Lemma filter_none {A : Type} (f : A -> bool) (l : list A) :
  (forall x, In x l -> f x = false) -> filter f l = [].
Proof.
  induction l as [|x l IH]; simpl; intros H; [reflexivity|].
  rewrite (H x) by auto. apply IH. auto.
Qed.

(** Extending a second time adds nothing. *)
Lemma extend_vars_idempotent (l : list string) :
  extend_vars (extend_vars l) = extend_vars l.
Proof.
  unfold extend_vars at 1. rewrite extend_fold.
  rewrite filter_none; [apply app_nil_r|].
  intros var Hv.
  apply negb_false_iff, in_set_In.
  destruct (in_set var l) eqn:Ei.
  - unfold extend_vars. rewrite extend_fold. apply in_or_app. left.
    apply in_set_In, Ei.
  - unfold extend_vars. rewrite extend_fold. apply in_or_app. right.
    apply filter_In. rewrite Ei. auto.
Qed.

(** *** Splitting and joining *)

Module PyStrFacts.

Import PyStr.

Lemma split_nonempty (c : ascii) (s : string) : split c s <> [].
Proof.
  destruct s as [|a r]; simpl; [discriminate|].
  destruct (Ascii.eqb a c); [discriminate|].
  destruct (split c r); discriminate.
Qed.

(** No field of a split has the separator. *)
Lemma split_fields (c : ascii) (s : string) :
  forall x, In x (split c s) -> contains_char c x = false.
Proof.
  induction s as [|a r IH]; simpl.
  - intros x [<-|[]]. reflexivity.
  - destruct (Ascii.eqb a c) eqn:E.
    + intros x [<-|H]; [reflexivity|auto].
    + destruct (split c r) as [|w ws].
      * intros x [<-|[]]. simpl. rewrite E. reflexivity.
      * intros x [<-|H]; [|apply IH; right; exact H].
        simpl. rewrite E. simpl. apply IH. left. reflexivity.
Qed.

Lemma split_plain (c : ascii) (x : string) :
  contains_char c x = false -> split c x = [x].
Proof.
  induction x as [|a r IH]; simpl; [reflexivity|].
  destruct (Ascii.eqb a c); simpl; [discriminate|].
  intros H. rewrite (IH H). reflexivity.
Qed.

Lemma split_app (c : ascii) (x r : string) :
  contains_char c x = false ->
  split c (x ++ String c r) = x :: split c r.
Proof.
  induction x as [|a x IH]; simpl.
  - rewrite Ascii.eqb_refl. reflexivity.
  - destruct (Ascii.eqb a c); simpl; [discriminate|].
    intros H. rewrite (IH H). reflexivity.
Qed.

(** Splitting undoes joining, for fields without the separator. *)
Lemma split_join (c : ascii) (l : list string) :
  l <> [] ->
  (forall x, In x l -> contains_char c x = false) ->
  split c (join (String c "") l) = l.
Proof.
  induction l as [|x l IH]; [congruence|]. intros _ Hl.
  destruct l as [|y l].
  - simpl. apply split_plain. apply Hl. left. reflexivity.
  - change (join (String c "") (x :: y :: l))
      with (x ++ String c (join (String c "") (y :: l)))%string.
    rewrite split_app by (apply Hl; left; reflexivity).
    rewrite IH; [reflexivity|discriminate|].
    intros z Hz. apply Hl. right. exact Hz.
Qed.

(** Joining undoes splitting. *)
Lemma join_split (c : ascii) (s : string) :
  join (String c "") (split c s) = s.
Proof.
  induction s as [|a r IH]; [reflexivity|].
  simpl. destruct (Ascii.eqb_spec a c) as [->|E].
  - pose proof (split_nonempty c r) as Hn.
    destruct (split c r) as [|w ws]; [congruence|].
    change (join (String c "") ("" :: w :: ws))%string
      with (String c (join (String c "") (w :: ws))).
    rewrite IH. reflexivity.
  - pose proof (split_nonempty c r) as Hn.
    destruct (split c r) as [|w ws]; [congruence|].
    destruct ws as [|w' ws].
    + simpl in *. rewrite IH. reflexivity.
    + change (join (String c "") (String a w :: w' :: ws))
        with (String a (join (String c "") (w :: w' :: ws))).
      rewrite IH. reflexivity.
Qed.

End PyStrFacts.

(** X7.  The text that lines 261-266 put under [extra_vars] lists the
    entries of the extended list, and the extension is stable: applied to
    its own result it changes nothing, so a map that went through
    [make_pism_args] gets no entry twice when it goes through again. *)
Theorem add_baseline_stable (ev : string) :
  PyStr.split "," (add_baseline ev) = extend_vars (PyStr.split "," ev)
  /\ add_baseline (add_baseline ev) = add_baseline ev.
Proof.
  assert (E : PyStr.split "," (add_baseline ev)
              = extend_vars (PyStr.split "," ev)).
  { unfold add_baseline. apply PyStrFacts.split_join.
    - unfold extend_vars. rewrite extend_fold.
      pose proof (PyStrFacts.split_nonempty "," ev).
      destruct (PyStr.split "," ev); [congruence|discriminate].
    - intros x Hx. unfold extend_vars in Hx. rewrite extend_fold in Hx.
      apply in_app_or in Hx. destruct Hx as [Hx|Hx].
      + apply (PyStrFacts.split_fields "," ev x Hx).
      + apply filter_In in Hx. destruct Hx as [Hx _].
        apply (PyStrFacts.split_fields "," baseline_vars x Hx). }
  split; [exact E|].
  unfold add_baseline at 1. rewrite E, extend_vars_idempotent. reflexivity.
Qed.

(** ** What [make_pism_args] returns and when it raises *)

Section Transform.

Import ODictFacts ODictMore.

Variable pism_dir : string.

(** The new value of a path argument. *)
Local Abbreviation abs_path s :=
  (Some (PosixPath.normpath (PosixPath.join pism_dir s))).

Lemma absolutize_cases (d : ODict.t) (key : string) :
  absolutize pism_dir d key
  = match ODict.getitem d key with
    | Ok (Some s) => Ok (ODict.setitem d key (abs_path s))
    | Ok None => Raise TypeError
    | Raise e => Raise e
    end.
Proof.
  unfold absolutize, rbind.
  destruct (ODict.getitem d key) as [[s|]|e]; reflexivity.
Qed.

Lemma add_vars_cases (d : ODict.t) :
  add_vars d
  = match ODict.getitem d "extra_vars" with
    | Ok (Some ev) =>
        Ok (ODict.setitem d "extra_vars" (Some (add_baseline ev)))
    | Ok None => Raise AttributeError
    | Raise e => Raise e
    end.
Proof.
  unfold add_vars, rbind.
  destruct (ODict.getitem d "extra_vars") as [[s|]|e]; reflexivity.
Qed.

(** The four arguments that are read are not among those deleted. *)
Lemma getitem_after_drop (d : ODict.t) (k : string) :
  In k (path_keys ++ ["extra_vars"]%string) ->
  ODict.getitem (drop_keys d bootstrap_only) k = ODict.getitem d k.
Proof.
  intros Hk. apply getitem_drop_keys_other. intros Hb.
  simpl in Hk, Hb.
  repeat (destruct Hk as [<-|Hk];
          [repeat (destruct Hb as [Hb|Hb]; [discriminate Hb|]); exact Hb|]).
  exact Hk.
Qed.

(** [transform_args] by the four lookups in the given map. *)
Lemma transform_args_cases (d : ODict.t) :
  transform_args pism_dir d
  = let d0 := drop_keys d bootstrap_only in
    match ODict.getitem d "i" with
    | Raise e => Raise e
    | Ok None => Raise TypeError
    | Ok (Some si) =>
        match ODict.getitem d "surface_given_file" with
        | Raise e => Raise e
        | Ok None => Raise TypeError
        | Ok (Some ss) =>
            match ODict.getitem d "ocean_kill_file" with
            | Raise e => Raise e
            | Ok None => Raise TypeError
            | Ok (Some so) =>
                match ODict.getitem d "extra_vars" with
                | Raise e => Raise e
                | Ok None => Raise AttributeError
                | Ok (Some ev) =>
                    Ok (ODict.setitem
                          (ODict.setitem
                             (ODict.setitem
                                (ODict.setitem d0 "i" (abs_path si))
                                "surface_given_file" (abs_path ss))
                             "ocean_kill_file" (abs_path so))
                          "extra_vars" (Some (add_baseline ev)))
                end
            end
        end
    end.
Proof.
  unfold transform_args. cbv zeta.
  unfold path_keys. cbn [absolutize_all]. unfold rbind.
  rewrite absolutize_cases.
  rewrite (getitem_after_drop d "i") by (simpl; tauto).
  destruct (ODict.getitem d "i") as [[si|]|e]; try reflexivity.
  rewrite absolutize_cases.
  rewrite getitem_setitem_other by discriminate.
  rewrite (getitem_after_drop d "surface_given_file") by (simpl; tauto).
  destruct (ODict.getitem d "surface_given_file") as [[ss|]|e];
    try reflexivity.
  rewrite absolutize_cases.
  rewrite !getitem_setitem_other by discriminate.
  rewrite (getitem_after_drop d "ocean_kill_file") by (simpl; tauto).
  destruct (ODict.getitem d "ocean_kill_file") as [[so|]|e];
    try reflexivity.
  rewrite add_vars_cases.
  rewrite !getitem_setitem_other by discriminate.
  rewrite (getitem_after_drop d "extra_vars") by (simpl; tauto).
  destruct (ODict.getitem d "extra_vars") as [[ev|]|e]; reflexivity.
Qed.

End Transform.

Lemma keys_filter (f : string -> bool) (d : ODict.t) :
  map fst (filter (fun e => f (fst e)) d) = filter f (map fst d).
Proof.
  induction d as [|e d IH]; simpl; [reflexivity|].
  destruct (f (fst e)); simpl; rewrite IH; reflexivity.
Qed.

(** X8.  On a map with distinct names whose [i], [surface_given_file],
    [ocean_kill_file] and [extra_vars] have string values, the call returns
    a new dictionary with: the names of the given map that are not
    bootstrap-only, in their order and no other name; the three paths joined
    to [pism_dir] and normalised; [extra_vars] extended; every other value
    as it was. *)
Theorem make_pism_args_returns (pism_dir : string) (h : Store.heap)
    (l : Store.loc) (d : ODict.t) (si ss so ev : string) :
  nth_error h l = Some d ->
  NoDup (map fst d) ->
  ODict.getitem d "i" = Ok (Some si) ->
  ODict.getitem d "surface_given_file" = Ok (Some ss) ->
  ODict.getitem d "ocean_kill_file" = Ok (Some so) ->
  ODict.getitem d "extra_vars" = Ok (Some ev) ->
  exists d' : ODict.t,
    make_pism_args pism_dir l h = (Ok (List.length h), h ++ [d'])
    /\ map fst d'
       = filter (fun k => negb (in_set k bootstrap_only)) (map fst d)
    /\ ODict.getitem d' "i"
       = Ok (Some (PosixPath.normpath (PosixPath.join pism_dir si)))
    /\ ODict.getitem d' "surface_given_file"
       = Ok (Some (PosixPath.normpath (PosixPath.join pism_dir ss)))
    /\ ODict.getitem d' "ocean_kill_file"
       = Ok (Some (PosixPath.normpath (PosixPath.join pism_dir so)))
    /\ ODict.getitem d' "extra_vars" = Ok (Some (add_baseline ev))
    /\ (forall k, In k bootstrap_only ->
                  ODict.getitem d' k = Raise (KeyError k))
    /\ (forall k, ~ In k (bootstrap_only ++ path_keys ++ ["extra_vars"]%string) ->
                  ODict.getitem d' k = ODict.getitem d k).
Proof.
  intros Hl Hn Hi Hs Ho He.
  pose proof (make_pism_args_transform pism_dir h l d Hl) as Hrun.
  rewrite transform_args_cases in Hrun. cbv zeta in Hrun.
  rewrite Hi, Hs, Ho, He in Hrun.
  set (d0 := drop_keys d bootstrap_only) in *.
  assert (Hin : forall k v, ODict.getitem d k = Ok v ->
                            In k (path_keys ++ ["extra_vars"]%string) ->
                            In k (map fst d0)).
  { intros k v Hk Hp. apply (ODictMore.getitem_In d0 k v).
    unfold d0. rewrite getitem_after_drop by exact Hp. exact Hk. }
  assert (Hkeys0 : map fst d0
                   = filter (fun k => negb (in_set k bootstrap_only))
                       (map fst d)).
  { unfold d0. rewrite ODictMore.drop_keys_filter by exact Hn.
    apply (keys_filter (fun k => negb (in_set k bootstrap_only))). }
  eexists. split; [exact Hrun|].
  split.
  { rewrite !ODictMore.keys_setitem_present; [exact Hkeys0| | | |].
    - apply (Hin _ _ Hi). simpl; tauto.
    - rewrite ODictMore.keys_setitem_present
        by (apply (Hin _ _ Hi); simpl; tauto).
      apply (Hin _ _ Hs). simpl; tauto.
    - rewrite !ODictMore.keys_setitem_present.
      + apply (Hin _ _ Ho). simpl; tauto.
      + apply (Hin _ _ Hi). simpl; tauto.
      + rewrite ODictMore.keys_setitem_present
          by (apply (Hin _ _ Hi); simpl; tauto).
        apply (Hin _ _ Hs). simpl; tauto.
    - rewrite !ODictMore.keys_setitem_present.
      + apply (Hin _ _ He). simpl; tauto.
      + apply (Hin _ _ Hi). simpl; tauto.
      + rewrite ODictMore.keys_setitem_present
          by (apply (Hin _ _ Hi); simpl; tauto).
        apply (Hin _ _ Hs). simpl; tauto.
      + rewrite !ODictMore.keys_setitem_present.
        * apply (Hin _ _ Ho). simpl; tauto.
        * apply (Hin _ _ Hi). simpl; tauto.
        * rewrite ODictMore.keys_setitem_present
            by (apply (Hin _ _ Hi); simpl; tauto).
          apply (Hin _ _ Hs). simpl; tauto. }
  split.
  { rewrite !ODictFacts.getitem_setitem_other by discriminate.
    apply ODictFacts.getitem_setitem_same. }
  split.
  { rewrite !ODictFacts.getitem_setitem_other by discriminate.
    apply ODictFacts.getitem_setitem_same. }
  split.
  { rewrite !ODictFacts.getitem_setitem_other by discriminate.
    apply ODictFacts.getitem_setitem_same. }
  split; [apply ODictFacts.getitem_setitem_same|].
  split.
  - intros k Hk.
    assert (Hk4 : ~ In k (path_keys ++ ["extra_vars"]%string)).
    { simpl in Hk |- *.
      repeat (destruct Hk as [<-|Hk]; [intuition discriminate|]).
      destruct Hk. }
    simpl in Hk4.
    rewrite !ODictFacts.getitem_setitem_other by (intros ->; tauto).
    apply ODictMore.getitem_not_In. rewrite Hkeys0.
    intros Hf. apply filter_In in Hf. destruct Hf as [_ Hf].
    apply negb_true_iff in Hf.
    apply (proj2 (in_set_In k bootstrap_only)) in Hk. congruence.
  - intros k Hk.
    assert (Hk1 : ~ In k bootstrap_only)
      by (intros H; apply Hk, in_or_app; left; exact H).
    assert (Hk4 : ~ In k (path_keys ++ ["extra_vars"]%string))
      by (intros H; apply Hk, in_or_app; right; exact H).
    simpl in Hk4.
    rewrite !ODictFacts.getitem_setitem_other by (intros ->; tauto).
    apply ODictMore.getitem_drop_keys_other, Hk1.
Qed.

Lemma make_pism_args_returns_witness :
  exists d' : ODict.t,
    make_pism_args "/run" 0%nat [example_args_with "a.nc" "b.nc"]
    = (Ok 1%nat, [example_args_with "a.nc" "b.nc"; d'])
    /\ map fst d'
       = ["i"; "surface_given_file"; "ocean_kill_file"; "extra_vars"]%string.
Proof.
  destruct (make_pism_args_returns "/run" [example_args_with "a.nc" "b.nc"]
              0%nat (example_args_with "a.nc" "b.nc")
              "rel/in.nc" "a.nc" "b.nc" "thk,topg")
    as (d' & H1 & H2 & _); try reflexivity.
  - simpl. repeat (constructor; [simpl; intuition discriminate|]).
    constructor.
  - exists d'. split; [exact H1|exact H2].
Defined.

(** X9.  The call returns if and only if the given map has string values
    for [i], [surface_given_file], [ocean_kill_file] and [extra_vars]. *)
Theorem make_pism_args_returns_iff (pism_dir : string) (h : Store.heap)
    (l : Store.loc) (d : ODict.t) :
  nth_error h l = Some d ->
  (exists r : Store.loc, fst (make_pism_args pism_dir l h) = Ok r)
  <-> (forall k, In k (path_keys ++ ["extra_vars"]%string) ->
                 exists s : string, ODict.getitem d k = Ok (Some s)).
Proof.
  intros Hl.
  pose proof (make_pism_args_transform pism_dir h l d Hl) as Hrun.
  rewrite transform_args_cases in Hrun. cbv zeta in Hrun.
  split.
  - intros [r Hr]. revert Hrun.
    destruct (ODict.getitem d "i") as [[si|]|e1] eqn:E1;
      try (intros Hrun; congruence).
    destruct (ODict.getitem d "surface_given_file") as [[ss|]|e2] eqn:E2;
      try (intros Hrun; congruence).
    destruct (ODict.getitem d "ocean_kill_file") as [[so|]|e3] eqn:E3;
      try (intros Hrun; congruence).
    destruct (ODict.getitem d "extra_vars") as [[ev|]|e4] eqn:E4;
      try (intros Hrun; congruence).
    intros _ k Hk. simpl in Hk.
    destruct Hk as [<-|[<-|[<-|[<-|[]]]]]; eauto.
  - intros Hall.
    destruct (Hall "i"%string) as [si Hi]; [simpl; tauto|].
    destruct (Hall "surface_given_file"%string) as [ss Hs]; [simpl; tauto|].
    destruct (Hall "ocean_kill_file"%string) as [so Ho]; [simpl; tauto|].
    destruct (Hall "extra_vars"%string) as [ev He]; [simpl; tauto|].
    rewrite Hi, Hs, Ho, He in Hrun. exists (List.length h).
    rewrite Hrun. reflexivity.
Qed.

Lemma make_pism_args_returns_iff_witness :
  ~ (forall k, In k (path_keys ++ ["extra_vars"]%string) ->
               exists s : string, ODict.getitem example_args k = Ok (Some s)).
Proof.
  intros H.
  apply (make_pism_args_returns_iff "/run" [example_args] 0%nat example_args
           eq_refl) in H.
  destruct H as [r Hr]. vm_compute in Hr. discriminate.
Defined.

(** X10.  When the call raises, it is for one of the four arguments it
    reads: [KeyError] with the name of one that is absent, [TypeError] for a
    path argument without value, [AttributeError] for [extra_vars] without
    value.  It raises nothing else. *)
Theorem make_pism_args_raises (pism_dir : string) (h : Store.heap)
    (l : Store.loc) (d : ODict.t) (e : exn) :
  nth_error h l = Some d ->
  fst (make_pism_args pism_dir l h) = Raise e ->
  (exists k, In k (path_keys ++ ["extra_vars"]%string)
             /\ ODict.getitem d k = Raise (KeyError k) /\ e = KeyError k)
  \/ (exists k, In k path_keys
                /\ ODict.getitem d k = Ok None /\ e = TypeError)
  \/ (ODict.getitem d "extra_vars" = Ok None /\ e = AttributeError).
Proof.
  intros Hl He.
  pose proof (make_pism_args_transform pism_dir h l d Hl) as Hrun.
  rewrite transform_args_cases in Hrun. cbv zeta in Hrun.
  revert Hrun.
  destruct (ODict.getitem d "i") as [[si|]|e1] eqn:E1; intros Hrun.
  2:{ right. left. exists "i"%string. simpl. intuition congruence. }
  2:{ left. exists "i"%string. pose proof (ODictMore.getitem_exn _ _ _ E1); subst.
      simpl. intuition congruence. }
  revert Hrun.
  destruct (ODict.getitem d "surface_given_file") as [[ss|]|e2] eqn:E2;
    intros Hrun.
  2:{ right. left. exists "surface_given_file"%string.
      simpl. intuition congruence. }
  2:{ left. exists "surface_given_file"%string.
      pose proof (ODictMore.getitem_exn _ _ _ E2); subst.
      simpl. intuition congruence. }
  revert Hrun.
  destruct (ODict.getitem d "ocean_kill_file") as [[so|]|e3] eqn:E3;
    intros Hrun.
  2:{ right. left. exists "ocean_kill_file"%string.
      simpl. intuition congruence. }
  2:{ left. exists "ocean_kill_file"%string.
      pose proof (ODictMore.getitem_exn _ _ _ E3); subst.
      simpl. intuition congruence. }
  revert Hrun.
  destruct (ODict.getitem d "extra_vars") as [[ev|]|e4] eqn:E4; intros Hrun.
  - rewrite Hrun in He. discriminate.
  - right. right. split; congruence.
  - left. exists "extra_vars"%string.
    pose proof (ODictMore.getitem_exn _ _ _ E4); subst.
    simpl. intuition congruence.
Qed.

Lemma make_pism_args_raises_witness :
  ODict.getitem example_args "surface_given_file"
  = Raise (KeyError "surface_given_file").
Proof.
  destruct (make_pism_args_raises "/run" [example_args] 0%nat example_args
              (KeyError "surface_given_file") eq_refl)
    as [(k & _ & _ & E)|[(k & _ & _ & E)|[_ E]]];
    try reflexivity; try discriminate E.
Defined.

(** *** Absolute paths *)

Lemma startswith_slash (s : string) :
  PyStr.startswith s "/" = true <-> exists r, s = String "/" r.
Proof.
  unfold PyStr.startswith. destruct s as [|c r].
  - split; [discriminate|intros [r' H]; discriminate].
  - change (String.prefix "/" (String c r))
      with (match ascii_dec "/" c with
            | left _ => String.prefix "" r
            | right _ => false
            end).
    destruct (ascii_dec "/" c) as [<-|E].
    + split; [eauto|]. intros _. destruct r; reflexivity.
    + split; [discriminate|]. intros [r' H]. congruence.
Qed.

Lemma join_absolute (a b : string) :
  PyStr.startswith a "/" = true ->
  PyStr.startswith (PosixPath.join a b) "/" = true.
Proof.
  intros Ha. unfold PosixPath.join.
  destruct (PyStr.startswith b "/") eqn:Hb; [exact Hb|].
  apply startswith_slash in Ha. destruct Ha as [r ->].
  destruct (_ || _); apply startswith_slash; simpl; eauto.
Qed.

Lemma normpath_absolute (p : string) :
  PyStr.startswith p "/" = true ->
  PyStr.startswith (PosixPath.normpath p) "/" = true.
Proof.
  intros Hp. unfold PosixPath.normpath. rewrite Hp.
  destruct (proj1 (startswith_slash p) Hp) as [r ->].
  change (String.eqb (String "/" r) "") with false. cbv iota zeta.
  set (k := if PyStr.startswith (String "/" r) "//"
               && negb (PyStr.startswith (String "/" r) "///")
            then 2%nat else 1%nat).
  assert (Hk : exists k', k = S k').
  { unfold k. destruct (_ && _); eauto. }
  destruct Hk as [k' ->].
  set (comps := fold_left _ _ _).
  change (PosixPath.seps (S k') ++ PyStr.join "/" comps)%string
    with (String "/" (PosixPath.seps k' ++ PyStr.join "/" comps)).
  change (String.eqb (String "/" (PosixPath.seps k' ++ PyStr.join "/" comps)) "")
    with false.
  cbv iota. apply startswith_slash. eauto.
Qed.

(** X11.  When [pism_dir] is absolute, every path argument of the returned
    map is absolute, whether the argument was given relative or absolute. *)
Theorem make_pism_args_paths_absolute (pism_dir : string) (h h' : Store.heap)
    (l r : Store.loc) (d : ODict.t) :
  nth_error h l = Some d ->
  PyStr.startswith pism_dir "/" = true ->
  make_pism_args pism_dir l h = (Ok r, h') ->
  forall k, In k path_keys ->
    exists p : string,
      ODict.getitem (Store.deref h' r) k = Ok (Some p)
      /\ PyStr.startswith p "/" = true.
Proof.
  intros Hl Hd Hm.
  pose proof (make_pism_args_transform pism_dir h l d Hl) as Hrun.
  rewrite transform_args_cases in Hrun. cbv zeta in Hrun.
  rewrite Hm in Hrun. revert Hrun.
  destruct (ODict.getitem d "i") as [[si|]|e1]; try discriminate.
  destruct (ODict.getitem d "surface_given_file") as [[ss|]|e2];
    try discriminate.
  destruct (ODict.getitem d "ocean_kill_file") as [[so|]|e3];
    try discriminate.
  destruct (ODict.getitem d "extra_vars") as [[ev|]|e4]; try discriminate.
  intros Hrun. injection Hrun as -> ->.
  rewrite StoreFacts.deref_last.
  intros k Hk. simpl in Hk.
  destruct Hk as [<-|[<-|[<-|[]]]]; eexists;
    (split;
     [rewrite ?ODictFacts.getitem_setitem_other by discriminate;
      apply ODictFacts.getitem_setitem_same
     |apply normpath_absolute, join_absolute, Hd]).
Qed.

Lemma make_pism_args_paths_absolute_witness :
  exists p : string,
    ODict.getitem
      (Store.deref
         (snd (make_pism_args "/run" 0%nat [example_args_with "a.nc" "/b.nc"]))
         1%nat) "surface_given_file" = Ok (Some p)
    /\ PyStr.startswith p "/" = true.
Proof.
  apply (make_pism_args_paths_absolute "/run"
           [example_args_with "a.nc" "/b.nc"] _ 0%nat 1%nat
           (example_args_with "a.nc" "/b.nc")).
  - reflexivity.
  - reflexivity.
  - reflexivity.
  - simpl. tauto.
Defined.

(** ** Cells and their centers *)

Section Cells.

Import Np NpFacts.

Variables (xc xb : array).
Hypothesis enough : (2 <= List.length xc)%nat.
Hypothesis run : center_to_boundaries xc = Ok xb.

Lemma boundaries_eq :
  xb = ((3 # 2) * nth 0 xc 0 - (1 # 2) * nth 1 xc 0)%Q
       :: midpoints xc
       ++ [((3 # 2) * nth (List.length xc - 1) xc 0
            - (1 # 2) * nth (List.length xc - 2) xc 0)%Q].
Proof.
  pose proof (center_to_boundaries_closed xc enough) as H.
  rewrite run in H. injection H as H. exact H.
Qed.

Lemma boundary_first :
  nth 0 xb 0%Q = ((3 # 2) * nth 0 xc 0 - (1 # 2) * nth 1 xc 0)%Q.
Proof. rewrite boundaries_eq. reflexivity. Qed.

Lemma boundary_inner (k : nat) :
  (1 <= k <= List.length xc - 1)%nat ->
  nth k xb 0%Q = ((nth (k - 1) xc 0 + nth k xc 0) * (1 # 2))%Q.
Proof.
  intros Hk. rewrite boundaries_eq. destruct k as [|k]; [lia|].
  cbn [nth]. rewrite app_nth1 by (rewrite length_midpoints; lia).
  rewrite nth_midpoints by lia.
  replace (S k - 1)%nat with k by lia. reflexivity.
Qed.

Lemma boundary_last :
  nth (List.length xc) xb 0%Q
  = ((3 # 2) * nth (List.length xc - 1) xc 0
     - (1 # 2) * nth (List.length xc - 2) xc 0)%Q.
Proof.
  rewrite boundaries_eq. rewrite app_comm_cons.
  rewrite app_nth2 by (simpl; rewrite length_midpoints; lia).
  replace (List.length xc - _)%nat with 0%nat
    by (simpl; rewrite length_midpoints; lia).
  reflexivity.
Qed.

End Cells.

(** X12.  For centers that are whole numbers (up to [2^50], on which
    lines 273-275 do not round) and that increase, every center lies
    strictly between the two boundaries of its cell,
    [xb[k] < xc[k] < xb[k+1]], so the boundaries increase as well. *)
Theorem boundaries_enclose_centers (xc xb : Np.array) :
  (2 <= List.length xc)%nat ->
  Forall (whole (2 ^ 50)) xc ->
  (forall k, (S k < List.length xc)%nat -> (nth k xc 0 < nth (S k) xc 0)%Q) ->
  center_to_boundaries xc = Ok xb ->
  forall k, (k < List.length xc)%nat ->
    (nth k xb 0 < nth k xc 0)%Q /\ (nth k xc 0 < nth (S k) xb 0)%Q.
Proof.
  intros HN _ Hinc Hrun k Hk.
  assert (Hlow : (nth k xb 0 < nth k xc 0)%Q).
  { destruct k as [|k].
    - rewrite (boundary_first xc xb HN Hrun).
      pose proof (Hinc 0%nat ltac:(lia)). lra.
    - rewrite (boundary_inner xc xb HN Hrun (S k)) by lia.
      replace (S k - 1)%nat with k by lia.
      pose proof (Hinc k ltac:(lia)). lra. }
  split; [exact Hlow|].
  destruct (Nat.eq_dec (S k) (List.length xc)) as [E|E].
  - rewrite E, (boundary_last xc xb HN Hrun).
    replace (List.length xc - 1)%nat with k by lia.
    pose proof (Hinc (k - 1)%nat ltac:(lia)) as H.
    replace (S (k - 1)) with k in H by lia.
    replace (List.length xc - 2)%nat with (k - 1)%nat by lia. lra.
  - rewrite (boundary_inner xc xb HN Hrun (S k)) by lia.
    replace (S k - 1)%nat with k by lia.
    pose proof (Hinc k ltac:(lia)). lra.
Qed.

Lemma boundaries_enclose_centers_witness :
  exists xb : Np.array,
    center_to_boundaries [0; 1; 3]%Q = Ok xb
    /\ (nth 2 xb 0 < nth 2 [0; 1; 3] 0)%Q
    /\ (nth 2 [0; 1; 3] 0 < nth 3 xb 0)%Q.
Proof.
  eexists. split; [reflexivity|].
  apply (boundaries_enclose_centers [0; 1; 3]%Q).
  - simpl; lia.
  - repeat constructor;
      [exists 0%Z|exists 1%Z|exists 3%Z];
      (split; [reflexivity|apply Z.leb_le; reflexivity]).
  - intros [|[|k]] Hk; simpl in *; try lia; reflexivity.
  - reflexivity.
  - simpl; lia.
Defined.

(** X13.  For centers that are whole numbers (up to [2^50], on which
    lines 273-275 do not round) evenly spaced by [d] from [c0], the
    boundaries are evenly spaced by [d] from [c0 - d/2]: every cell has the
    width [d] and its center in the middle. *)
Theorem boundaries_of_even_centers (xc xb : Np.array) (c0 d : Q) :
  (2 <= List.length xc)%nat ->
  Forall (whole (2 ^ 50)) xc ->
  (forall k, (k < List.length xc)%nat ->
             (nth k xc 0 == c0 + inject_Z (Z.of_nat k) * d)%Q) ->
  center_to_boundaries xc = Ok xb ->
  forall k, (k <= List.length xc)%nat ->
    (nth k xb 0 == c0 - d / 2 + inject_Z (Z.of_nat k) * d)%Q.
Proof.
  intros HN _ Hev Hrun k Hk.
  assert (Hs : forall j, (inject_Z (Z.of_nat (S j))
                          == inject_Z (Z.of_nat j) + 1)%Q).
  { intros j. rewrite Nat2Z.inj_succ. unfold Z.succ.
    rewrite inject_Z_plus. reflexivity. }
  destruct k as [|k].
  - rewrite (boundary_first xc xb HN Hrun).
    rewrite (Hev 0%nat), (Hev 1%nat) by lia.
    change (inject_Z (Z.of_nat 0)) with 0%Q.
    change (inject_Z (Z.of_nat 1)) with 1%Q. field.
  - destruct (Nat.eq_dec (S k) (List.length xc)) as [E|E].
    + rewrite E, (boundary_last xc xb HN Hrun).
      rewrite (Hev (List.length xc - 1)%nat), (Hev (List.length xc - 2)%nat)
        by lia.
      rewrite <- E.
      replace (S k - 1)%nat with k by lia.
      destruct k as [|k]; [lia|].
      replace (S (S k) - 2)%nat with k by lia.
      rewrite !Hs. field.
    + rewrite (boundary_inner xc xb HN Hrun (S k)) by lia.
      replace (S k - 1)%nat with k by lia.
      rewrite (Hev k), (Hev (S k)) by lia.
      rewrite !Hs. field.
Qed.

Lemma boundaries_of_even_centers_witness :
  exists xb : Np.array,
    center_to_boundaries [10; 30; 50]%Q = Ok xb
    /\ (nth 3 xb 0 == 10 - 20 / 2 + inject_Z (Z.of_nat 3) * 20)%Q.
Proof.
  eexists. split; [reflexivity|].
  apply (boundaries_of_even_centers [10; 30; 50]%Q).
  - simpl; lia.
  - repeat constructor;
      [exists 10%Z|exists 30%Z|exists 50%Z];
      (split; [reflexivity|apply Z.leb_le; reflexivity]).
  - intros [|[|[|k]]] Hk; simpl in *; try lia; reflexivity.
  - reflexivity.
  - simpl; lia.
Defined.

(** ** The resampled centers *)

Lemma nth_resample (c5 xc : Np.array) (M k : Z) :
  (1 <= List.length c5)%nat ->
  resample c5 M = Ok xc ->
  (0 <= k < M)%Z ->
  nth (Z.to_nat k) xc 0%Q = resampled c5 M k.
Proof.
  intros Hc Hr Hk. rewrite (resample_Ok c5 Hc) in Hr. injection Hr as <-.
  rewrite (nth_indep _ 0%Q (resampled c5 M 0))
    by (rewrite length_map, length_range0; lia).
  rewrite (map_nth (resampled c5 M)), nth_range0 by exact Hk.
  reflexivity.
Qed.

(** X14.  For a target size of two or more, native end centers that are
    whole numbers and an extent that [M - 1] divides (so that lines 216-217
    do not round), the resampled centers start at the first native center,
    end at the last one, and are evenly spaced by one [(M-1)]-th of the
    native extent. *)
Theorem resample_even (c5 xc : Np.array) (M : Z) :
  (1 <= List.length c5)%nat ->
  (2 <= M)%Z ->
  exact_resampling c5 M ->
  resample c5 M = Ok xc ->
  (nth 0 xc 0 == nth 0 c5 0)%Q
  /\ (nth (Z.to_nat (M - 1)) xc 0 == nth (List.length c5 - 1) c5 0)%Q
  /\ forall k : Z,
       (0 <= k < M - 1)%Z ->
       (nth (Z.to_nat (k + 1)) xc 0 - nth (Z.to_nat k) xc 0
        == (nth (List.length c5 - 1) c5 0 - nth 0 c5 0) / inject_Z (M - 1))%Q.
Proof.
  intros Hc HM _ Hr.
  assert (HM1 : ~ (inject_Z (M - 1) == 0)%Q).
  { unfold Qeq. simpl. lia. }
  split; [|split].
  - change 0%nat with (Z.to_nat 0).
    rewrite (nth_resample c5 xc M 0 Hc Hr) by lia.
    unfold resampled. change (inject_Z 0) with 0%Q.
    change (Z.to_nat 0) with 0%nat. field. exact HM1.
  - rewrite (nth_resample c5 xc M (M - 1) Hc Hr) by lia.
    unfold resampled. set (m := inject_Z (M - 1)) in *. field. exact HM1.
  - intros k Hk.
    rewrite (nth_resample c5 xc M (k + 1) Hc Hr) by lia.
    rewrite (nth_resample c5 xc M k Hc Hr) by lia.
    unfold resampled. rewrite inject_Z_plus.
    change (inject_Z 1) with 1%Q.
    set (m := inject_Z (M - 1)) in *. set (q := inject_Z k). field.
    exact HM1.
Qed.

Lemma resample_even_witness :
  exists xc : Np.array,
    resample [0; 1000; 2000; 3000]%Q 7 = Ok xc
    /\ (nth (Z.to_nat (7 - 1)) xc 0 == 3000)%Q.
Proof.
  eexists. split; [reflexivity|].
  apply (resample_even [0; 1000; 2000; 3000]%Q _ 7).
  - simpl; lia.
  - lia.
  - exists 0%Z, 3000%Z.
    repeat split; try reflexivity; try (apply Z.leb_le; reflexivity).
    exists 500%Z. reflexivity.
  - reflexivity.
Defined.

(** ** When [snoop_grid] returns *)

Lemma resample_empty (M : Z) :
  (1 <= M)%Z -> resample [] M = Raise IndexError.
Proof.
  intros HM. unfold resample, range0.
  destruct (Z.to_nat M) as [|n] eqn:E; [lia|]. reflexivity.
Qed.

Lemma resample_length (c5 xc : Np.array) (M : Z) :
  resample c5 M = Ok xc -> List.length xc = Z.to_nat M.
Proof.
  intros H. destruct (resample_cases c5 M) as [E|(xc' & E & L)];
    rewrite E in H; [discriminate|]. injection H as <-. exact L.
Qed.

Lemma resolution_km_length (c : Np.array) (z : Z) :
  resolution_km c = Ok z -> (2 <= List.length c)%nat.
Proof.
  intros H. destruct (Nat.lt_ge_cases (List.length c) 2) as [L|L]; [|exact L].
  rewrite (resolution_km_short c L) in H. discriminate.
Qed.

Lemma snoop_grid_proj4 (fs : string -> option ncfile) (pism_dir : string)
    (Mx My : Z) (a : ODict.t) (v : pism_vals) :
  snoop_grid fs pism_dir Mx My a = Ok v ->
  forall (i : string) (nc : ncfile),
    ODict.getitem a "i" = Ok (Some i) ->
    fs (PosixPath.normpath (PosixPath.join pism_dir i)) = Some nc ->
    nc_proj4 nc = Some (proj4 v).
Proof.
  unfold snoop_grid. intros H i nc Hi Hf. rewrite Hi in H.
  cbn [rbind required] in H. rewrite Hf in H. cbn [rbind required] in H.
  destruct (nc_proj4 nc) as [p4|]; [|discriminate H].
  cbn [rbind required] in H.
  rbind_step H. rbind_step H. rbind_step H. rbind_step H. rbind_step H.
  rbind_step H. injection H as <-. reflexivity.
Qed.

(** X15.  [snoop_grid] returns only if the arguments give [i] a value, the
    file that it names under [pism_dir] exists and has [proj4], [x1] and
    [y1], both arrays have an element, and [Mx] and [My] are two or more;
    and under these conditions it returns when the native end centers and
    the sizes are within [2^50], so that every number of lines 216-225 is
    finite. *)
Theorem snoop_grid_returns_when (fs : string -> option ncfile)
    (pism_dir : string) (Mx My : Z) (a : ODict.t) :
  ((exists v : pism_vals, snoop_grid fs pism_dir Mx My a = Ok v) ->
   exists (i p4 : string) (xc5 yc5 : Np.array),
     ODict.getitem a "i" = Ok (Some i)
     /\ fs (PosixPath.normpath (PosixPath.join pism_dir i))
        = Some {| nc_proj4 := Some p4; nc_x1 := Some xc5;
                  nc_y1 := Some yc5 |}
     /\ (1 <= List.length xc5)%nat /\ (1 <= List.length yc5)%nat
     /\ (2 <= Mx)%Z /\ (2 <= My)%Z)
  /\ (forall (i p4 : string) (xc5 yc5 : Np.array),
        ODict.getitem a "i" = Ok (Some i) ->
        fs (PosixPath.normpath (PosixPath.join pism_dir i))
        = Some {| nc_proj4 := Some p4; nc_x1 := Some xc5;
                  nc_y1 := Some yc5 |} ->
        (1 <= List.length xc5)%nat -> (1 <= List.length yc5)%nat ->
        (2 <= Mx)%Z -> (2 <= My)%Z ->
        bounded_axis xc5 Mx -> bounded_axis yc5 My ->
        exists v : pism_vals, snoop_grid fs pism_dir Mx My a = Ok v).
Proof.
  split.
  - intros [v H].
    destruct (snoop_grid_inv _ _ _ _ _ _ H)
      as (i & nc & xc5 & yc5 & idx & idy & Hi & Hf & Hx1 & Hy1 & Rx & Ry
          & Kx & Ky & _ & _).
    pose proof (snoop_grid_proj4 _ _ _ _ _ _ H i nc Hi Hf) as Hp.
    pose proof (resample_length _ _ _ Rx) as Lx.
    pose proof (resample_length _ _ _ Ry) as Ly.
    apply resolution_km_length in Kx. apply resolution_km_length in Ky.
    assert (HMx : (2 <= Mx)%Z) by lia.
    assert (HMy : (2 <= My)%Z) by lia.
    exists i, (proj4 v), xc5, yc5.
    split; [exact Hi|]. split.
    { rewrite Hf. destruct nc; simpl in *. congruence. }
    split.
    { destruct xc5; [rewrite resample_empty in Rx by lia; discriminate|].
      simpl; lia. }
    split.
    { destruct yc5; [rewrite resample_empty in Ry by lia; discriminate|].
      simpl; lia. }
    split; assumption.
  - intros i p4 xc5 yc5 Hi Hf Lx Ly HMx HMy _ _.
    unfold snoop_grid. rewrite Hi. cbn [rbind required]. rewrite Hf.
    cbn [rbind required nc_proj4 nc_x1 nc_y1].
    rewrite (resample_Ok xc5 Lx), (resample_Ok yc5 Ly). cbn [rbind].
    rewrite !resolution_km_Ok
      by (rewrite length_map, length_range0; lia).
    cbn [rbind]. eexists. reflexivity.
Qed.

Lemma snoop_grid_returns_when_witness :
  exists v : pism_vals,
    snoop_grid fs_greenland "/run" 3 3 args_greenland = Ok v.
Proof.
  apply (proj2 (snoop_grid_returns_when fs_greenland "/run" 3 3 args_greenland)
           "pism_Greenland_5km.nc" "+proj=stere"
           [0; 5000; 10000]%Q [10000; 5000; 0]%Q);
    try reflexivity; try (simpl; lia);
    (split; [|split]); try (apply Z.leb_le; reflexivity);
    vm_compute; discriminate.
Defined.

(** X16.  When the leaf name of the [i] file does not begin with
    [pism_Greenland], the grid is named after that leaf name without its
    extension, followed by the resolution, [km_] and the first index of the
    order only: the name ends in [km_1]. *)
Theorem snoop_grid_name_other (fs : string -> option ncfile)
    (pism_dir : string) (Mx My : Z) (a : ODict.t) (v : pism_vals)
    (i : string) :
  snoop_grid fs pism_dir Mx My a = Ok v ->
  ODict.getitem a "i" = Ok (Some i) ->
  PyStr.startswith (PosixPath.basename i) "pism_Greenland" = false ->
  exists idx idy : Z,
    resolution_km (x_centers v) = Ok idx
    /\ resolution_km (y_centers v) = Ok idy
    /\ name v
       = (PosixPath.splitext_root (PosixPath.basename i)
          ++ dxdy_of idx idy ++ "km_1")%string.
Proof.
  intros H Hi Hp.
  destruct (snoop_grid_inv _ _ _ _ _ _ H)
    as (i' & nc & xc5 & yc5 & idx & idy & Hi' & _ & _ & _ & _ & _
        & Hx & Hy & _ & Hn).
  assert (i' = i) by congruence. subst i'.
  exists idx, idy. split; [exact Hx|]. split; [exact Hy|].
  rewrite Hn. unfold grid_name. rewrite Hp. reflexivity.
Qed.

Lemma snoop_grid_name_other_witness :
  exists v : pism_vals,
    snoop_grid fs_antarctica "/run" 3 3 args_antarctica = Ok v
    /\ name v = "ant_5km.v25_-4km_1"%string.
Proof.
  eexists. split; [vm_compute; reflexivity|].
  destruct (snoop_grid_name_other fs_antarctica "/run" 3 3 args_antarctica _
              "ant_5km.v2.nc" eq_refl eq_refl eq_refl)
    as (idx & idy & Hx & Hy & Hn).
  reflexivity.
Defined.

(** ** [write_gridspec_xy] *)

Lemma center_to_boundaries_raises (xc : Np.array) :
  (List.length xc < 2)%nat -> center_to_boundaries xc = Raise IndexError.
Proof.
  destruct xc as [|c0 [|c1 r]]; simpl List.length; intros H;
    [reflexivity|reflexivity|lia].
Qed.

Lemma center_to_boundaries_returns (xc : Np.array) :
  (2 <= List.length xc)%nat ->
  exists xb : Np.array,
    center_to_boundaries xc = Ok xb
    /\ List.length xb = (List.length xc + 1)%nat.
Proof.
  intros H. eexists. split; [apply center_to_boundaries_closed, H|].
  simpl. rewrite length_app, length_midpoints. simpl. lia.
Qed.

(** X17.  On what [snoop_grid] returns, [write_gridspec_xy] never raises:
    it writes the x and y boundaries, [Mx + 1] and [My + 1] of them, and
    the descriptor with the name, the type [XY], the indices [1, 0], the
    projection and [nx = Mx], [ny = My]. *)
Theorem write_gridspec_after_snoop (fs : string -> option ncfile)
    (pism_dir : string) (Mx My : Z) (a : ODict.t) (v : pism_vals) :
  snoop_grid fs pism_dir Mx My a = Ok v ->
  exists xb yb : Np.array,
    center_to_boundaries (x_centers v) = Ok xb
    /\ center_to_boundaries (y_centers v) = Ok yb
    /\ write_gridspec_xy v
       = (Ok tt,
          {| ds_dims := [("grid.x_boundaries.length"%string, (Z.to_nat Mx + 1)%nat);
                         ("grid.y_boundaries.length"%string, (Z.to_nat My + 1)%nat)];
             ds_vars :=
               [("grid.x_boundaries"%string,
                 {| var_type := "d"; var_dims := ["grid.x_boundaries.length"%string];
                    var_data := Some xb; var_attrs := [] |});
                ("grid.y_boundaries"%string,
                 {| var_type := "d"; var_dims := ["grid.y_boundaries.length"%string];
                    var_data := Some yb; var_attrs := [] |});
                ("grid.info"%string,
                 {| var_type := "i"; var_dims := []; var_data := None;
                    var_attrs :=
                      [("name"%string, AttrStr (name v));
                       ("type"%string, AttrStr "XY");
                       ("indices"%string, AttrInts [1; 0]%Z);
                       ("sproj"%string, AttrStr (proj4 v));
                       ("nx"%string, AttrInt Mx);
                       ("ny"%string, AttrInt My)] |})] |}).
Proof.
  intros H.
  destruct (snoop_grid_inv _ _ _ _ _ _ H)
    as (i & nc & xc5 & yc5 & idx & idy & _ & _ & _ & _ & Rx & Ry
        & Kx & Ky & Ho & _).
  pose proof (resample_length _ _ _ Rx) as Lx.
  pose proof (resample_length _ _ _ Ry) as Ly.
  apply resolution_km_length in Kx. apply resolution_km_length in Ky.
  destruct (center_to_boundaries_returns _ Kx) as (xb & Hxb & Lxb).
  destruct (center_to_boundaries_returns _ Ky) as (yb & Hyb & Lyb).
  exists xb, yb. split; [exact Hxb|]. split; [exact Hyb|].
  unfold write_gridspec_xy. rewrite Hxb, Hyb.
  unfold createVariable, createDimension, empty_dataset. simpl.
  rewrite Ho, Lxb, Lyb, Lx, Ly. simpl.
  rewrite !Z2Nat.id by lia. reflexivity.
Qed.

Lemma write_gridspec_after_snoop_witness :
  exists v : pism_vals,
    snoop_grid fs_greenland "/run" 3 3 args_greenland = Ok v
    /\ fst (write_gridspec_xy v) = Ok tt.
Proof.
  destruct (snoop_grid fs_greenland "/run" 3 3 args_greenland) as [v|e] eqn:E.
  - exists v. split; [reflexivity|].
    destruct (write_gridspec_after_snoop fs_greenland "/run" 3 3
                args_greenland v E) as (xb & yb & _ & _ & H).
    rewrite H. reflexivity.
  - vm_compute in E. discriminate E.
Defined.

(** X18.  The file is created before the boundaries are computed and is
    not removed when they fail: with fewer than two x centers the call
    raises [IndexError] and leaves the file empty; with x centers enough and
    fewer than two y centers it raises [IndexError] and leaves a file with
    the x boundaries only, without the y boundaries and the descriptor. *)
Theorem write_gridspec_partial (pism : pism_vals) :
  ((List.length (x_centers pism) < 2)%nat ->
   write_gridspec_xy pism = (Raise IndexError, empty_dataset))
  /\ ((2 <= List.length (x_centers pism))%nat ->
      (List.length (y_centers pism) < 2)%nat ->
      exists xb : Np.array,
        center_to_boundaries (x_centers pism) = Ok xb
        /\ write_gridspec_xy pism
           = (Raise IndexError,
              {| ds_dims :=
                   [("grid.x_boundaries.length"%string,
                     (List.length (x_centers pism) + 1)%nat)];
                 ds_vars :=
                   [("grid.x_boundaries"%string,
                     {| var_type := "d";
                        var_dims := ["grid.x_boundaries.length"%string];
                        var_data := Some xb; var_attrs := [] |})] |})).
Proof.
  split.
  - intros Hx. unfold write_gridspec_xy.
    rewrite (center_to_boundaries_raises _ Hx). reflexivity.
  - intros Hx Hy.
    destruct (center_to_boundaries_returns _ Hx) as (xb & Hxb & Lxb).
    exists xb. split; [exact Hxb|].
    unfold write_gridspec_xy.
    rewrite Hxb, (center_to_boundaries_raises _ Hy).
    unfold createVariable, createDimension, empty_dataset. simpl.
    rewrite Lxb. reflexivity.
Qed.

Lemma write_gridspec_partial_witness :
  exists ds : dataset,
    write_gridspec_xy vals_short_y = (Raise IndexError, ds)
    /\ List.length (ds_vars ds) = 1%nat.
Proof.
  destruct (proj2 (write_gridspec_partial vals_short_y)) as (xb & _ & H).
  - simpl; lia.
  - simpl; lia.
  - eexists. split; [exact H|reflexivity].
Defined.

(** ** [pushd] *)

(** X19.  From a working directory that exists, [with pushd(dir)] leaves the
    process where it was, whether the body returns or raises and wherever
    the body went; the block gives what the body gives; and when [dir]
    cannot be entered the body does not run and nothing moves. *)
Theorem pushd_restores {A : Type} (is_dir : string -> bool) (dir : string)
    (body : Proc.P A) (cwd : string) :
  PyStr.startswith cwd "/" = true ->
  PosixPath.normpath cwd = cwd ->
  is_dir cwd = true ->
  snd (Proc.pushd is_dir dir body cwd) = cwd
  /\ (forall cwd1, Proc.chdir is_dir dir cwd = (Ok tt, cwd1) ->
                   fst (Proc.pushd is_dir dir body cwd) = fst (body cwd1))
  /\ (forall e, fst (Proc.chdir is_dir dir cwd) = Raise e ->
                Proc.pushd is_dir dir body cwd = (Raise e, cwd)).
Proof.
  intros Habs Hnorm Hdir.
  assert (Hback : forall cwd2, Proc.chdir is_dir cwd cwd2 = (Ok tt, cwd)).
  { intros cwd2. unfold Proc.chdir, PosixPath.join. rewrite Habs, Hnorm, Hdir.
    destruct (proj1 (startswith_slash cwd) Habs) as [r ->]. reflexivity. }
  unfold Proc.pushd. cbv zeta.
  destruct (Proc.chdir is_dir dir cwd) as [[[]|e] cwd1] eqn:E.
  - destruct (body cwd1) as [r cwd2] eqn:Eb. rewrite Hback.
    split; [reflexivity|]. split.
    + intros c H. injection H as <-. rewrite Eb. reflexivity.
    + intros e H. discriminate H.
  - assert (cwd1 = cwd).
    { unfold Proc.chdir in E. destruct (_ && _); congruence. }
    subst cwd1. split; [reflexivity|]. split.
    + intros c H. discriminate H.
    + intros e' H. simpl in H. congruence.
Qed.

Lemma pushd_restores_witness :
  snd (Proc.pushd dirs_run "out"
         (fun c => (@Raise unit (KeyError "x"), "/"%string)) "/run")
  = "/run"%string.
Proof.
  apply (pushd_restores dirs_run "out"
           (fun c => (@Raise unit (KeyError "x"), "/"%string)) "/run");
    reflexivity.
Defined.

(** ** [make_grid] *)

(** X20.  [make_grid] never returns [True].  When the grid file exists it
    returns [False] and runs nothing; otherwise it runs the command with
    [-o] and the file name once, and when the command has run, whatever its
    return code, the comparison of the [CompletedProcess] with 0 sends it to
    the [raise] of the undefined name [RuntimError]: a [NameError]. *)
Theorem make_grid_never_true (path_exists : string -> bool)
    (subprocess_run : list string -> result Grid.completed)
    (grid_cmd : list string) (grid_fname : string) :
  fst (Grid.make_grid path_exists subprocess_run grid_cmd grid_fname)
  <> Grid.Returns true
  /\ (path_exists grid_fname = true ->
      fst (Grid.make_grid path_exists subprocess_run grid_cmd grid_fname)
      = Grid.Returns false
      /\ forall cmd,
           ~ In (Grid.Run cmd)
               (snd (Grid.make_grid path_exists subprocess_run grid_cmd
                       grid_fname)))
  /\ (path_exists grid_fname = false ->
      (forall cmd,
         In (Grid.Run cmd)
           (snd (Grid.make_grid path_exists subprocess_run grid_cmd
                   grid_fname))
         <-> cmd = grid_cmd ++ ["-o"%string; grid_fname])
      /\ forall ret,
           subprocess_run (grid_cmd ++ ["-o"%string; grid_fname]) = Ok ret ->
           fst (Grid.make_grid path_exists subprocess_run grid_cmd grid_fname)
           = Grid.Raises (Grid.NameError "RuntimError")).
Proof.
  unfold Grid.make_grid.
  destruct (path_exists grid_fname) eqn:Ee.
  - split; [discriminate|]. split; [|discriminate].
    intros _. split; [reflexivity|].
    intros cmd [H|[]]. discriminate H.
  - destruct (subprocess_run (grid_cmd ++ ["-o"%string; grid_fname]))
      as [ret|e]; cbv zeta;
      [change (Grid.ne_int ret 0) with true; cbv iota|];
      (split; [discriminate|]); (split; [discriminate|]); intros _;
      (split;
       [intros cmd; simpl; split;
        [intros [H|[H|[H|[]]]]; try discriminate H; congruence
        |intros ->; auto]
       |]).
    + reflexivity.
    + discriminate.
Qed.

Lemma make_grid_never_true_witness :
  fst (Grid.make_grid (fun _ => false)
         (fun _ => Ok (Grid.CompletedProcess 0))
         ["spec_to_grid"; "gridI_spec.nc"]%string "g.nc")
  = Grid.Raises (Grid.NameError "RuntimError").
Proof.
  apply (make_grid_never_true (fun _ => false)
           (fun _ => Ok (Grid.CompletedProcess 0))
           ["spec_to_grid"; "gridI_spec.nc"]%string "g.nc"
           : _ /\ _ /\ (_ -> _ /\ forall ret, _ -> _))
    with (ret := Grid.CompletedProcess 0); reflexivity.
Defined.

(** ** Further compositions *)

Lemma startswith_dash (s : string) :
  PyStr.startswith s "-" = true -> exists r, s = String "-" r.
Proof.
  unfold PyStr.startswith. destruct s as [|c r]; [discriminate|].
  change (String.prefix "-" (String c r))
    with (match ascii_dec "-" c with
          | left _ => String.prefix "" r
          | right _ => false
          end).
  destruct (ascii_dec "-" c) as [<-|E]; [eauto|discriminate].
Qed.

(** X21.  A flag with its value at the end of the command line decides the
    value of its name, whatever the tokens before it did with that name:
    the last occurrence wins.  In particular an empty last token, which a
    command line ending in whitespace has, is taken as the value of a flag
    right before it. *)
Theorem last_flag_wins (pre : list string) (tok v : string)
    (n : nat) (a : ODict.t) :
  PyStr.startswith tok "-" = true ->
  PyStr.startswith v "-" = false \/ third_is_digit v = true ->
  parse_iter n (pre ++ [tok; v]) (0%nat, ODict.empty) = Ok (List.length pre, a) ->
  parse_cmd (pre ++ [tok; v])
  = Some (Ok (ODict.setitem a (PyStr.drop1 tok) (Some v)))
  /\ ODict.getitem (ODict.setitem a (PyStr.drop1 tok) (Some v)) (PyStr.drop1 tok)
     = Ok (Some v).
Proof.
  intros Hd Hv Hreach. split; [|apply ODictFacts.getitem_setitem_same].
  rewrite parse_cmd_tokens.
  pose proof (parse_iter_tokens _ _ _ _ _ _ Hreach) as H. simpl in H.
  rewrite H, skipn_app, skipn_all, Nat.sub_diag. simpl.
  rewrite Hd, (takes_value_true v Hv). reflexivity.
Qed.

Lemma last_flag_wins_witness :
  parse_cmd ["-ys"; "1"; "-bootstrap"; "-ys"; ""]%string
  = Some (Ok [("ys", Some ""); ("bootstrap", None)]%string).
Proof.
  apply (last_flag_wins ["-ys"; "1"; "-bootstrap"]%string "-ys" "" 2
           [("ys", Some "1"); ("bootstrap", None)]%string).
  - reflexivity.
  - left. reflexivity.
  - reflexivity.
Defined.

(** X22.  The grid that is written reaches half a cell beyond the native
    centers on either side: for a target size [M] of two or more, native
    end centers that are whole numbers and an extent that [M - 1] divides
    (so that lines 216-217 and 273-275 do not round), the first boundary of
    the resampled centers is the first native center minus half the spacing
    and the last boundary is the last native center plus half the spacing,
    the spacing being the native extent over [M - 1]. *)
Theorem resampled_grid_extent (c5 xc xb : Np.array) (M : Z) :
  (1 <= List.length c5)%nat ->
  (2 <= M)%Z ->
  exact_resampling c5 M ->
  resample c5 M = Ok xc ->
  center_to_boundaries xc = Ok xb ->
  (nth 0 xb 0
   == nth 0 c5 0
      - (nth (List.length c5 - 1) c5 0 - nth 0 c5 0) / inject_Z (M - 1) / 2)%Q
  /\ (nth (Z.to_nat M) xb 0
      == nth (List.length c5 - 1) c5 0
         + (nth (List.length c5 - 1) c5 0 - nth 0 c5 0) / inject_Z (M - 1) / 2)%Q.
Proof.
  intros Hc HM _ Hr Hb.
  pose proof (resample_length _ _ _ Hr) as L.
  assert (HN : (2 <= List.length xc)%nat) by lia.
  assert (HM1 : ~ (inject_Z (M - 1) == 0)%Q) by (unfold Qeq; simpl; lia).
  assert (H2 : (inject_Z (M - 2) == inject_Z (M - 1) - 1)%Q).
  { replace (M - 2)%Z with ((M - 1) + - (1))%Z by lia.
    rewrite inject_Z_plus. reflexivity. }
  split.
  - rewrite (boundary_first xc xb HN Hb).
    assert (E0 : nth 0 xc 0%Q = resampled c5 M 0)
      by (apply (nth_resample c5 xc M 0 Hc Hr); lia).
    assert (E1 : nth 1 xc 0%Q = resampled c5 M 1)
      by (apply (nth_resample c5 xc M 1 Hc Hr); lia).
    rewrite E0, E1. unfold resampled. change (inject_Z 0) with 0%Q.
    change (inject_Z 1) with 1%Q.
    set (m := inject_Z (M - 1)) in *. field. exact HM1.
  - rewrite <- L. rewrite (boundary_last xc xb HN Hb). rewrite L.
    replace (Z.to_nat M - 1)%nat with (Z.to_nat (M - 1)) by lia.
    replace (Z.to_nat M - 2)%nat with (Z.to_nat (M - 2)) by lia.
    rewrite (nth_resample c5 xc M (M - 1) Hc Hr),
      (nth_resample c5 xc M (M - 2) Hc Hr) by lia.
    unfold resampled. rewrite H2.
    set (m := inject_Z (M - 1)) in *. field. exact HM1.
Qed.

Lemma resampled_grid_extent_witness :
  exists xc xb : Np.array,
    resample [0; 1000; 2000; 3000]%Q 7 = Ok xc
    /\ center_to_boundaries xc = Ok xb
    /\ (nth 0 xb 0 == 0 - (3000 - 0) / inject_Z (7 - 1) / 2)%Q.
Proof.
  eexists. eexists. split; [reflexivity|]. split; [reflexivity|].
  eapply (resampled_grid_extent [0; 1000; 2000; 3000]%Q).
  - simpl; lia.
  - lia.
  - exists 0%Z, 3000%Z.
    repeat split; try reflexivity; try (apply Z.leb_le; reflexivity).
    exists 500%Z. reflexivity.
  - reflexivity.
  - reflexivity.
Defined.

(** X23.  A command line without the token [-i] cannot be snooped: either
    the parse raises [IndexError] or the lookup of [args['i']] raises
    [KeyError]; no file is read. *)
Theorem snoop_pism_without_i (fs : string -> option ncfile)
    (pism_dir command : string) (Mx My : Z) :
  ~ In "-i"%string (PyStr.re_split_ws command) ->
  snoop_pism fs pism_dir command Mx My = Some (Raise IndexError)
  \/ snoop_pism fs pism_dir command Mx My = Some (Raise (KeyError "i")).
Proof.
  intros Hno. unfold snoop_pism, parse_command.
  rewrite parse_cmd_tokens.
  destruct (parse_tokens (PyStr.re_split_ws command) ODict.empty)
    as [d|e] eqn:E.
  - right. cbn [rbind]. unfold snoop_grid.
    rewrite ODictMore.getitem_not_In; [reflexivity|].
    intros Hin. apply in_map_iff in Hin. destruct Hin as ([k v] & Hk & Hin).
    simpl in Hk. subst k.
    destruct (parse_tokens_from_command (PyStr.re_split_ws command)
                (PyStr.re_split_ws command) [] ODict.empty d eq_refl
                (fun e (He : In e ODict.empty) => match He with end) E
                _ Hin) as (tok & Hd & Hk & Hv).
    simpl in Hk, Hv. apply Hno.
    assert (tok = "-i"%string).
    { apply startswith_dash in Hd. destruct Hd as [r ->].
      simpl in Hk. congruence. }
    subst tok. destruct v as [nxt|]; [|exact Hv].
    destruct Hv as (pre & post & ->). apply in_or_app. right. left.
    reflexivity.
  - left. rewrite (parse_tokens_exn _ _ _ E). reflexivity.
Qed.

Lemma snoop_pism_without_i_witness :
  snoop_pism fs_greenland "/run" "pismr -bootstrap -Mx 4" 4 4
  = Some (Raise (KeyError "i")).
Proof.
  destruct (snoop_pism_without_i fs_greenland "/run"
              "pismr -bootstrap -Mx 4" 4 4) as [H|H].
  - simpl. intuition discriminate.
  - vm_compute in H. discriminate H.
  - exact H.
Defined.
